(** * The Telegram Mini-App auth bridge ([webapp/static/js/telegram_auth.js])

    The script is one immediately-invoked function.  It probes the page for
    the Telegram bridge ([window.Telegram], [Telegram.WebApp]), signals
    readiness with [tg.ready()], and, when [tg.initData] is a non-empty
    value, relays it to the backend with one [fetch]; the promise chain that
    follows logs the outcome on the console.

    The development embeds the script in a writer/exception monad over a
    trace of host interactions: every property read on the bridge, every
    call into the host, every console line and every network request is an
    event, in program order.  The host (the page's globals, the server's
    answer) is an explicit environment. *)

From Stdlib Require Import String Ascii List ZArith Bool Lia DecimalString.
Import ListNotations.
Local Open Scope string_scope.
Local Open Scope Z_scope.
Set Warnings "-register-all".

(** ** JavaScript values and the built-ins the script relies on *)

Module JS.

(** The fragment of the value universe the script can meet.  Strings are
    sequences of code units below 256; Numbers are the integer-valued
    ones; objects are plain records of own data properties, in insertion
    order; a host function is given by its completion when called with no
    argument ([throws = true]: it throws [result], otherwise it returns
    [result]); [VError name message] is an instance of an Error class. *)
Inductive value : Type :=
| VUndefined
| VNull
| VBool (b : bool)
| VNum (n : Z)
| VStr (s : string)
| VObj (props : list (string * value))
| VFun (throws : bool) (result : value)
| VError (name message : string).

(** A completion record: normal, or abrupt with a thrown value.  A settled
    promise is read the same way: fulfilled, or rejected with a reason. *)
Inductive completion (A : Type) : Type :=
| Normal (a : A)
| Abrupt (reason : value).
Arguments Normal {A} a.
Arguments Abrupt {A} reason.

(** [ToBoolean]: the falsy values are undefined, null, false, 0 and the
    empty string. *)
Definition ToBoolean (v : value) : bool :=
  match v with
  | VUndefined | VNull => false
  | VBool b => b
  | VNum n => negb (n =? 0)
  | VStr s => negb (String.eqb s EmptyString)
  | VObj _ | VFun _ _ | VError _ _ => true
  end.

(** undefined and null have no properties: reading one throws. *)
Definition nullish (v : value) : bool :=
  match v with
  | VUndefined | VNull => true
  | _ => false
  end.

Fixpoint lookup (p : string) (props : list (string * value)) : option value :=
  match props with
  | [] => None
  | (k, v) :: rest => if String.eqb k p then Some v else lookup p rest
  end.

(** The value of [v.p] for a [v] that is neither undefined nor null: own
    data properties of objects, the [length] of a string, the [message]
    of an error; anything else reads as undefined.  The properties a
    function has of itself ([length], [name]) and those a value inherits
    are outside the model: no statement below reads a property of a
    function. *)
Definition own_prop (v : value) (p : string) : value :=
  match v with
  | VObj props =>
      match lookup p props with Some x => x | None => VUndefined end
  | VStr s =>
      if String.eqb p "length" then VNum (Z.of_nat (String.length s))
      else VUndefined
  | VError _ m => if String.eqb p "message" then VStr m else VUndefined
  | _ => VUndefined
  end.

(** [v === n] for a Number literal [n]. *)
Definition strict_eq_num (v : value) (n : Z) : bool :=
  match v with
  | VNum m => m =? n
  | _ => false
  end.

Definition TypeError (message : string) : value := VError "TypeError" message.

(** *** [JSON.stringify] *)

Definition dquote : string := String (ascii_of_nat 34) EmptyString.
Definition backslash : string := String (ascii_of_nat 92) EmptyString.

Definition hex_digit (n : nat) : ascii :=
  if Nat.ltb n 10 then ascii_of_nat (48 + n) else ascii_of_nat (87 + n).

(** One code unit of a string inside JSON quotes. *)
Definition JSON_escape (c : ascii) : string :=
  let n := nat_of_ascii c in
  if Nat.eqb n 8 then backslash ++ "b"
  else if Nat.eqb n 9 then backslash ++ "t"
  else if Nat.eqb n 10 then backslash ++ "n"
  else if Nat.eqb n 12 then backslash ++ "f"
  else if Nat.eqb n 13 then backslash ++ "r"
  else if Nat.eqb n 34 then backslash ++ dquote
  else if Nat.eqb n 92 then backslash ++ backslash
  else if Nat.ltb n 32 then
    backslash ++ "u00"
      ++ String (hex_digit (Nat.div n 16))
           (String (hex_digit (Nat.modulo n 16)) EmptyString)
  else String c EmptyString.

Fixpoint JSON_escape_all (s : string) : string :=
  match s with
  | EmptyString => EmptyString
  | String c rest => JSON_escape c ++ JSON_escape_all rest
  end.

Definition JSON_quote (s : string) : string :=
  dquote ++ JSON_escape_all s ++ dquote.

Fixpoint join (sep : string) (parts : list string) : string :=
  match parts with
  | [] => EmptyString
  | [x] => x
  | x :: rest => x ++ sep ++ join sep rest
  end.

(** [None] stands for the result undefined (a function, or undefined
    itself); such a property is left out of its object.  This is the
    built-in on plain data: a value with a [toJSON] method, which the
    built-in calls and which may throw, a Number of magnitude 1e21 or more,
    which it writes with an exponent, and an object with integer-like keys,
    which it moves to the front, are outside the model.  The statements
    below use it on strings, on [true] and on integers up to 2^53, under a
    key that is not a number. *)
Fixpoint JSON_stringify (v : value) : option string :=
  match v with
  | VUndefined => None
  | VFun _ _ => None
  | VNull => Some "null"
  | VBool true => Some "true"
  | VBool false => Some "false"
  | VNum n => Some (NilZero.string_of_int (Z.to_int n))
  | VStr s => Some (JSON_quote s)
  | VError _ _ => Some "{}"
  | VObj props =>
      let members :=
        (fix go (l : list (string * value)) : list string :=
           match l with
           | [] => []
           | (k, x) :: rest =>
               match JSON_stringify x with
               | Some s => (JSON_quote k ++ ":" ++ s) :: go rest
               | None => go rest
               end
           end) props in
      Some ("{" ++ join "," members ++ "}")
  end.

End JS.
Import JS.

(** ** Host interactions and the monad of the script *)

(** [console.log], [console.warn], [console.error]. *)
Inductive level : Type := Log | Warn | Error.

(** The request [fetch(url, init)] hands to the network layer. *)
Record request : Type := mkRequest {
  url : string;
  method : string;
  headers : list (string * string);
  credentials : string;
  body : option string
}.

(** What the script can see of a [Response]: its status, and how the two
    body readers settle ([resp.text()], [resp.json()]). *)
Record response : Type := mkResponse {
  status : Z;
  text : completion string;
  json : completion value
}.

(** [resp.ok]: the status is in the range 200-299. *)
Definition ok (resp : response) : bool :=
  (200 <=? status resp) && (status resp <=? 299).

Inductive reader : Type := AsText | AsJson.

(** The alphabet of host interactions.  [EGet], [ESet] and [ECall] name the
    host object by the expression the program uses for it ([window],
    [Telegram], [tg], [document], ...): a property read, a property
    assignment, a method call.  The console, [fetch] and the body readers of
    a response have events of their own.  What is recorded of the reads are
    those of the global [Telegram] and of the bridge under it; the fields of
    a [response] are plain data of the record. *)
Inductive event : Type :=
| EGet (object property : string)
| ESet (object property : string) (v : value)
| ECall (object method : string)
| EConsole (l : level) (args : list value)
| EFetch (r : request)
| EBody (how : reader).

(** A computation yields the events it performed, in order, and its
    completion.  A promise is read as the computation that settles it. *)
Definition M (A : Type) : Type := (list event * completion A)%type.

Definition trace {A} (m : M A) : list event := fst m.
Definition outcome {A} (m : M A) : completion A := snd m.

Definition ret {A} (a : A) : M A := ([], Normal a).

Definition throw {A} (reason : value) : M A := ([], Abrupt reason).

Definition bind {A B} (m : M A) (k : A -> M B) : M B :=
  match m with
  | (t, Normal a) => let (t', r) := k a in ((t ++ t')%list, r)
  | (t, Abrupt reason) => (t, Abrupt reason)
  end.

Definition emit (e : event) : M unit := ([e], Normal tt).

Declare Scope js_scope.
Delimit Scope js_scope with js.
Notation "x <- c ;; k" := (bind c (fun x => k))
  (at level 100, c at next level, right associativity) : js_scope.
Notation "c ;; k" := (bind c (fun _ => k))
  (at level 100, right associativity) : js_scope.
Local Open Scope js_scope.

(** [p.then(f)] and [p.catch(h)] on a promise [p]. *)
Definition then_ {A B} (p : M A) (f : A -> M B) : M B := bind p f.

Definition catch_ {A} (p : M A) (h : value -> M A) : M A :=
  match p with
  | (t, Abrupt reason) => let (t', r) := h reason in ((t ++ t')%list, r)
  | (t, Normal a) => (t, Normal a)
  end.

(** [await p] inside an async function: the value of [p], or its rejection
    thrown. *)
Definition await {A} (p : M A) : M A := p.

(** The member expression [o.p], where [v] is the value of [o]. *)
Definition member (o : string) (v : value) (p : string) : M value :=
  if nullish v then throw (TypeError ("Cannot read properties of " ++ o))
  else emit (EGet o p) ;; ret (own_prop v p).

(** The call [o.m()], where [v] is the value of [o]. *)
Definition call_method (o : string) (v : value) (m : string) : M value :=
  f <- member o v m ;;
  match f with
  | VFun throws result =>
      emit (ECall o m) ;;
      if throws then throw result else ret result
  | _ => throw (TypeError (o ++ "." ++ m ++ " is not a function"))
  end.

Definition console (l : level) (args : list value) : M unit :=
  emit (EConsole l args).

(** ** The environment of a page load *)

(** [window]: the own properties of the global object; [network]: how the
    request, once issued, settles (a response, or a rejection such as a
    network error). *)
Record env : Type := mkEnv {
  window : list (string * value);
  network : request -> completion response
}.

(** A global identifier [x] read as a variable. *)
Definition global (E : env) (x : string) : M value :=
  match lookup x (window E) with
  | Some v => emit (EGet "window" x) ;; ret v
  | None => throw (VError "ReferenceError" (x ++ " is not defined"))
  end.

(** The promise [fetch] returns is taken at its settlement: the events that
    follow [EFetch] in a trace are those of the callbacks once it has
    settled.  The run while the request is pending is a prefix of that
    trace. *)
Definition fetch (E : env) (r : request) : M response :=
  ([EFetch r], network E r).

Definition resp_text (resp : response) : M string := ([EBody AsText], text resp).
Definition resp_json (resp : response) : M value := ([EBody AsJson], json resp).

(** ** The script *)

(** [a || b] on conditions: [b] is evaluated only when [a] is false. *)
Definition or_else (a b : M bool) : M bool :=
  x <- a ;; if (x : bool) then ret true else b.

Definition endpoint : string := "/api/v1/auth/telegram-webapp".

(** The [init] object of the [fetch] call, for the value [d] of
    [tg.initData]. *)
Definition auth_request (d : value) : request :=
  {| url := endpoint;
     method := "POST";
     headers := [("Content-Type", "application/json")];
     credentials := "include";
     body := JSON_stringify (VObj [("init_data", d)]) |}.

(** [async (resp) => { if (!resp.ok) { const txt = await resp.text();
    throw new Error(txt); } return resp.json(); }] *)
Definition on_response (resp : response) : M value :=
  if negb (ok resp) then
    txt <- await (resp_text resp) ;;
    throw (VError "Error" txt)
  else
    resp_json resp.

(** [(data) => { console.log("Telegram auth OK", data); }] *)
Definition on_data (data : value) : M unit :=
  console Log [VStr "Telegram auth OK"; data].

(** [(err) => { console.error("Telegram auth failed", err); }] *)
Definition on_error (err : value) : M unit :=
  console Error [VStr "Telegram auth failed"; err].

(** [p.then(on_response).then(on_data).catch(on_error)] for the promise [p]
    that [fetch] returned. *)
Definition chain (p : M response) : M unit :=
  catch_ (then_ (then_ p on_response) on_data) on_error.

(** The condition [!window.Telegram || !Telegram.WebApp]. *)
Definition bridge_missing (E : env) : M bool :=
  or_else
    (t <- member "window" (VObj (window E)) "Telegram" ;;
     ret (negb (ToBoolean t)))
    (T <- global E "Telegram" ;;
     w <- member "Telegram" T "WebApp" ;;
     ret (negb (ToBoolean w))).

(** The condition [!tg.initData || tg.initData.length === 0]. *)
Definition initData_empty (tg : value) : M bool :=
  or_else
    (d <- member "tg" tg "initData" ;;
     ret (negb (ToBoolean d)))
    (d <- member "tg" tg "initData" ;;
     n <- member "tg.initData" d "length" ;;
     ret (strict_eq_num n 0)).

(** The statement [fetch(...).then(...).then(...).catch(...)]. *)
Definition relay (E : env) (tg : value) : M unit :=
  d <- member "tg" tg "initData" ;;
  chain (fetch E (auth_request d)).

(** The body of the function from [tg.ready()] on, [tg] being the value
    bound by [const tg = Telegram.WebApp]. *)
Definition with_bridge (E : env) (tg : value) : M unit :=
  call_method "tg" tg "ready" ;;
  empty <- initData_empty tg ;;
  if (empty : bool) then
    console Warn [VStr "No initData from Telegram"]
  else
    relay E tg.

(** The whole function, invoked once per page load. *)
Definition iife (E : env) : M unit :=
  missing <- bridge_missing E ;;
  if (missing : bool) then
    console Warn [VStr "Telegram WebApp API not found"]
  else
    T <- global E "Telegram" ;;
    tg <- member "Telegram" T "WebApp" ;;
    with_bridge E tg.

(** ** What an invocation leaves behind *)

(** The assignment [o.p = v] on the own properties of [o]. *)
Fixpoint assign (p : string) (v : value) (props : list (string * value))
  : list (string * value) :=
  match props with
  | [] => [(p, v)]
  | (k, x) :: rest =>
      if String.eqb k p then (k, v) :: rest else (k, x) :: assign p v rest
  end.

(** The globals after the event [e]: an assignment on [window], on the
    object [Telegram] or on the bridge [tg] changes them; nothing else
    does. *)
Definition after_event (e : event) (w : list (string * value))
  : list (string * value) :=
  match e with
  | ESet o p v =>
      if String.eqb o "window" then assign p v w
      else
        match lookup "Telegram" w with
        | Some (VObj T) =>
            if String.eqb o "Telegram" then
              assign "Telegram" (VObj (assign p v T)) w
            else if String.eqb o "tg" then
              match lookup "WebApp" T with
              | Some (VObj A) =>
                  assign "Telegram"
                    (VObj (assign "WebApp" (VObj (assign p v A)) T)) w
              | _ => w
              end
            else w
        | _ => w
        end
  | _ => w
  end.

(** The page as the events [t] leave it. *)
Definition page_after (t : list event) (E : env) : env :=
  {| window := fold_left (fun w e => after_event e w) t (window E);
     network := network E |}.

(** The function invoked twice in sequence on one page, the second time
    once the first run is over: the second invocation finds the page as
    the first one left it.  A second invocation that starts earlier finds
    the page as a prefix of the first trace left it. *)
Definition invoke_twice (E : env) : M unit :=
  let (t1, _) := iife E in
  let (t2, r2) := iife (page_after t1 E) in
  ((t1 ++ t2)%list, r2).

(** ** Observations on a host and on a trace *)

(** The bridge object the probe finds: the value of [Telegram.WebApp] when
    both [window.Telegram] and it are truthy. *)
Definition bridge (E : env) : option value :=
  let T := own_prop (VObj (window E)) "Telegram" in
  if ToBoolean T then
    let w := own_prop T "WebApp" in
    if ToBoolean w then Some w else None
  else None.

(** The bridge exposes [ready()]: a function that returns to its caller. *)
Definition exposes_ready (tg : value) : Prop :=
  exists r, own_prop tg "ready" = VFun false r.

(** The network requests of a trace, in order. *)
Fixpoint requests (t : list event) : list request :=
  match t with
  | [] => []
  | EFetch r :: rest => r :: requests rest
  | _ :: rest => requests rest
  end.

(** The console lines of a trace, in order. *)
Fixpoint console_lines (t : list event) : list (level * list value) :=
  match t with
  | [] => []
  | EConsole l args :: rest => (l, args) :: console_lines rest
  | _ :: rest => console_lines rest
  end.

Definition is_fetch (e : event) : bool :=
  match e with EFetch _ => true | _ => false end.

Definition is_console (e : event) : bool :=
  match e with EConsole _ _ => true | _ => false end.

Definition is_body_read (e : event) : bool :=
  match e with EBody _ => true | _ => false end.

Definition is_get (e : event) : bool :=
  match e with EGet _ _ => true | _ => false end.

Definition is_set (e : event) : bool :=
  match e with ESet _ _ _ => true | _ => false end.

(** The object an [EGet], [ESet] or [ECall] event is about. *)
Definition object_of (e : event) : option string :=
  match e with
  | EGet o _ | ESet o _ _ | ECall o _ => Some o
  | _ => None
  end.

Definition on_object (o : string) (e : event) : bool :=
  match object_of e with
  | Some o' => String.eqb o' o
  | None => false
  end.

(** The three precondition steps, as events. *)
Definition is_presence_check (e : event) : bool :=
  match e with
  | EGet o p =>
      (String.eqb o "window" && String.eqb p "Telegram")
      || (String.eqb o "Telegram" && String.eqb p "WebApp")
  | _ => false
  end.

Definition is_ready_call (e : event) : bool :=
  match e with
  | ECall o m => String.eqb o "tg" && String.eqb m "ready"
  | _ => false
  end.

(** A read of [tg.initData]: the guard of line 10 makes the first ones, the
    request body of line 22 the last; [is_length_check] is the read only
    the guard makes. *)
Definition is_initData_check (e : event) : bool :=
  match e with
  | EGet o p => String.eqb o "tg" && String.eqb p "initData"
  | _ => false
  end.

Definition is_length_check (e : event) : bool :=
  match e with
  | EGet o p => String.eqb o "tg.initData" && String.eqb p "length"
  | _ => false
  end.

(** A side effect: anything but a property read. *)
Definition is_effect (e : event) : bool := negb (is_get e).

Definition effects (t : list event) : list event := filter is_effect t.

(** Every [q]-event of [t] has a [p]-event somewhere before it. *)
Definition precedes (p q : event -> bool) (t : list event) : Prop :=
  forall before e after,
    t = (before ++ e :: after)%list -> q e = true -> existsb p before = true.

Fixpoint precedesb (p q : event -> bool) (seen : bool) (t : list event) : bool :=
  match t with
  | [] => true
  | e :: rest => (negb (q e) || seen) && precedesb p q (seen || p e) rest
  end.

(** The reads of the probe and of [const tg = Telegram.WebApp] when the
    bridge is there. *)
Definition probe_reads : list event :=
  [EGet "window" "Telegram";
   EGet "window" "Telegram"; EGet "Telegram" "WebApp";
   EGet "window" "Telegram"; EGet "Telegram" "WebApp"].

(** The reads of the probe when [window.Telegram] is truthy and
    [Telegram.WebApp] is not. *)
Definition probe_no_WebApp : list event :=
  [EGet "window" "Telegram";
   EGet "window" "Telegram"; EGet "Telegram" "WebApp"].

(** The reads of [tg.ready()] and of the [initData] guard when [initData]
    is truthy. *)
Definition ready_events : list event :=
  [EGet "tg" "ready"; ECall "tg" "ready"].

Definition guard_reads : list event :=
  [EGet "tg" "initData"; EGet "tg" "initData"; EGet "tg.initData" "length"].

(** What the callbacks of the chain do once the [fetch] promise has settled
    as [o]. *)
Definition settle (o : completion response) : M unit := chain ([], o).

(** The bridge object has no [initData]: the field is not there, or it
    holds undefined. *)
Definition initData_missing (tg : value) : Prop :=
  match tg with
  | VObj props =>
      lookup "initData" props = None \/ lookup "initData" props = Some VUndefined
  | _ => False
  end.

(** The page has no global [Telegram]. *)
Definition Telegram_missing (E : env) : Prop :=
  lookup "Telegram" (window E) = None.

(** The page has a global [Telegram] object without a [WebApp] field. *)
Definition WebApp_missing (E : env) : Prop :=
  exists props,
    lookup "Telegram" (window E) = Some (VObj props)
    /\ lookup "WebApp" props = None.

(** An effect the network or the console accounts for. *)
Definition is_network_or_console (e : event) : bool :=
  is_fetch e || is_body_read e || is_console e.

(** The frame of a run that does nothing but at most one network exchange
    and console logging. *)
Definition network_and_console_only (t : list event) : Prop :=
  forallb is_network_or_console (effects t) = true
  /\ (length (requests t) <= 1)%nat
  /\ existsb is_set t = false
  /\ existsb (on_object "document") t = false.

(** The forms the callbacks' trace can take. *)
Inductive settled_shape : list event -> Prop :=
| settled_rejected (e : value) :
    settled_shape [EConsole Error [VStr "Telegram auth failed"; e]]
| settled_not_ok (e : value) :
    settled_shape [EBody AsText; EConsole Error [VStr "Telegram auth failed"; e]]
| settled_ok (data : value) :
    settled_shape [EBody AsJson; EConsole Log [VStr "Telegram auth OK"; data]]
| settled_bad_json (e : value) :
    settled_shape [EBody AsJson; EConsole Error [VStr "Telegram auth failed"; e]].

(** The forms a whole run can take: stopped at the first guard, stopped by
    an exception of [tg.ready()], stopped at the second guard, or relayed. *)
Inductive run_shape : M unit -> Prop :=
| run_missing (reads : list event) :
    reads = [EGet "window" "Telegram"] \/ reads = probe_no_WebApp ->
    run_shape
      ((reads ++ [EConsole Warn [VStr "Telegram WebApp API not found"]])%list,
       Normal tt)
| run_not_callable (e : value) :
    run_shape ((probe_reads ++ [EGet "tg" "ready"])%list, Abrupt e)
| run_ready_throws (e : value) :
    run_shape ((probe_reads ++ ready_events)%list, Abrupt e)
| run_empty (reads : list event) :
    reads = [EGet "tg" "initData"] \/ reads = guard_reads ->
    run_shape
      ((probe_reads ++ ready_events ++ reads
          ++ [EConsole Warn [VStr "No initData from Telegram"]])%list,
       Normal tt)
| run_relayed (d : value) (callbacks : list event) :
    settled_shape callbacks ->
    run_shape
      ((probe_reads ++ ready_events ++ guard_reads
          ++ EGet "tg" "initData" :: EFetch (auth_request d) :: callbacks)%list,
       Normal tt).

(** ** Sample hosts *)

Definition web_app (init_data : value) : value :=
  VObj [("initData", init_data); ("ready", VFun false VUndefined)].

Definition page (init_data : value) (server : request -> completion response) : env :=
  {| window := [("Telegram", VObj [("WebApp", web_app init_data)])];
     network := server |}.

(** A page whose bridge lacks the [initData] field, one whose [ready()]
    returns a number, one whose [Telegram] global has no [WebApp]. *)
Definition page_without_initData : env :=
  {| window :=
       [("Telegram", VObj [("WebApp", VObj [("ready", VFun false VUndefined)])])];
     network := fun _ => Abrupt (VError "TypeError" "Failed to fetch") |}.

Definition page_ready_returns (r init_data : value)
    (server : request -> completion response) : env :=
  {| window :=
       [("Telegram",
         VObj [("WebApp", VObj [("initData", init_data); ("ready", VFun false r)])])];
     network := server |}.

Definition page_without_WebApp : env :=
  {| window := [("Telegram", VObj [])];
     network := fun _ => Abrupt (VError "TypeError" "Failed to fetch") |}.

Definition page_without_Telegram : env :=
  {| window := [];
     network := fun _ => Abrupt (VError "TypeError" "Failed to fetch") |}.

Definition offline : request -> completion response :=
  fun _ => Abrupt (TypeError "Failed to fetch").

Definition replies (resp : response) : request -> completion response :=
  fun _ => Normal resp.

(** The responses of the spec's scenarios: 401 with the text
    [invalid signature]; 200 with the JSON object [{ok: true}]; 200 with a
    body that is not JSON. *)
Definition resp_401 : response :=
  {| status := 401;
     text := Normal "invalid signature";
     json := Abrupt (VError "SyntaxError" "Unexpected token i in JSON") |}.

Definition resp_200 : response :=
  {| status := 200;
     text := Normal ("{" ++ dquote ++ "ok" ++ dquote ++ ":true}");
     json := Normal (VObj [("ok", VBool true)]) |}.

Definition resp_200_html : response :=
  {| status := 200;
     text := Normal "<html>";
     json := Abrupt (VError "SyntaxError" "Unexpected token < in JSON") |}.

(** ** Further observations *)

(** The values of [initData] the data model of the bridge has, a string,
    and those the first test of the guard stops: undefined, null, false, 0
    and the empty string. *)
Definition string_or_falsy (d : value) : Prop :=
  ToBoolean d = false \/ exists X : string, d = VStr X.

(** A page whose bridge, if it has one, holds such an [initData]. *)
Definition initData_as_specified (E : env) : Prop :=
  forall tg : value,
    bridge E = Some tg -> string_or_falsy (own_prop tg "initData").

(** A Number that is an integer the format holds exactly. *)
Definition safe_integer (n : Z) : Prop := Z.abs n <= 2 ^ 53.

(** [typeof v === "function"]. *)
Definition callable (v : value) : bool :=
  match v with
  | VFun _ _ => true
  | _ => false
  end.

Definition is_warning (e : event) : bool :=
  match e with
  | EConsole Warn _ => true
  | _ => false
  end.

(** The console line that reports the end of a relay: [console.log] or
    [console.error]. *)
Definition is_report (e : event) : bool :=
  match e with
  | EConsole Log _ | EConsole Error _ => true
  | _ => false
  end.

(** The value of a hexadecimal digit as [hex_digit] writes it. *)
Definition hex_value (c : ascii) : nat :=
  let n := nat_of_ascii c in
  if Nat.ltb n 58 then n - 48 else n - 87.

(** The reader of what [JSON_escape_all] writes: the text between the
    quotes of a JSON string, back to its code units. *)
Fixpoint JSON_unescape (s : string) : string :=
  match s with
  | EmptyString => EmptyString
  | String c rest =>
      if Nat.eqb (nat_of_ascii c) 92 then
        match rest with
        | EmptyString => EmptyString
        | String e rest' =>
            let n := nat_of_ascii e in
            if Nat.eqb n 98 then String (ascii_of_nat 8) (JSON_unescape rest')
            else if Nat.eqb n 116 then String (ascii_of_nat 9) (JSON_unescape rest')
            else if Nat.eqb n 110 then String (ascii_of_nat 10) (JSON_unescape rest')
            else if Nat.eqb n 102 then String (ascii_of_nat 12) (JSON_unescape rest')
            else if Nat.eqb n 114 then String (ascii_of_nat 13) (JSON_unescape rest')
            else if Nat.eqb n 117 then
              match rest' with
              | String _ (String _ (String h (String l rest''))) =>
                  String (ascii_of_nat (16 * hex_value h + hex_value l))
                    (JSON_unescape rest'')
              | _ => EmptyString
              end
            else String e (JSON_unescape rest')
        end
      else String c (JSON_unescape rest)
  end.

(** Pages whose bridge has no [ready], a [ready] that throws [e], and an
    [initData] of any value. *)
Definition page_without_ready (init_data : value) : env :=
  {| window := [("Telegram", VObj [("WebApp", VObj [("initData", init_data)])])];
     network := fun _ => Abrupt (VError "TypeError" "Failed to fetch") |}.

Definition page_ready_throws (e init_data : value) : env :=
  {| window :=
       [("Telegram",
         VObj [("WebApp", VObj [("initData", init_data); ("ready", VFun true e)])])];
     network := fun _ => Abrupt (VError "TypeError" "Failed to fetch") |}.

(** A 500 response whose body cannot be read. *)
Definition resp_500_unreadable : response :=
  {| status := 500;
     text := Abrupt (VError "TypeError" "network error");
     json := Abrupt (VError "TypeError" "network error") |}.

(** The five ways a run can go, each with the condition on the page that
    selects it. *)
Inductive run_of (E : env) : Prop :=
| of_missing (reads : list event) :
    bridge E = None ->
    reads = [EGet "window" "Telegram"] \/ reads = probe_no_WebApp ->
    iife E =
      ((reads ++ [EConsole Warn [VStr "Telegram WebApp API not found"]])%list,
       Normal tt) ->
    run_of E
| of_not_callable (tg : value) :
    bridge E = Some tg -> callable (own_prop tg "ready") = false ->
    iife E =
      ((probe_reads ++ [EGet "tg" "ready"])%list,
       Abrupt (TypeError "tg.ready is not a function")) ->
    run_of E
| of_ready_throws (tg e : value) :
    bridge E = Some tg -> own_prop tg "ready" = VFun true e ->
    iife E = ((probe_reads ++ ready_events)%list, Abrupt e) ->
    run_of E
| of_empty (tg r : value) (reads : list event) :
    bridge E = Some tg -> own_prop tg "ready" = VFun false r ->
    (ToBoolean (own_prop tg "initData") = false /\ reads = [EGet "tg" "initData"])
    \/ (ToBoolean (own_prop tg "initData") = true
        /\ strict_eq_num (own_prop (own_prop tg "initData") "length") 0 = true
        /\ reads = guard_reads) ->
    iife E =
      ((probe_reads ++ ready_events ++ reads
          ++ [EConsole Warn [VStr "No initData from Telegram"]])%list,
       Normal tt) ->
    run_of E
| of_relayed (tg r : value) :
    bridge E = Some tg -> own_prop tg "ready" = VFun false r ->
    ToBoolean (own_prop tg "initData") = true ->
    strict_eq_num (own_prop (own_prop tg "initData") "length") 0 = false ->
    iife E =
      ((probe_reads ++ ready_events ++ guard_reads
          ++ EGet "tg" "initData" :: EFetch (auth_request (own_prop tg "initData"))
          :: trace (settle (network E (auth_request (own_prop tg "initData")))))%list,
       Normal tt) ->
    run_of E.

(** ** Values *)

Lemma truthy_not_nullish (v : value) : ToBoolean v = true -> nullish v = false.
Proof. destruct v; simpl; congruence. Qed.

Lemma truthy_string (X : string) : X <> EmptyString -> ToBoolean (VStr X) = true.
Proof. destruct X; simpl; congruence. Qed.

Lemma string_length_nonzero (X : string) :
  X <> EmptyString -> strict_eq_num (own_prop (VStr X) "length") 0 = false.
Proof. destruct X; simpl; [congruence | reflexivity]. Qed.

Lemma append_assoc (a b c : string) : (a ++ b) ++ c = a ++ (b ++ c).
Proof. induction a as [|x a IH]; simpl; [reflexivity | now rewrite IH]. Qed.

(** The JSON text of the request body. *)
Lemma stringify_init_data (X : string) :
  JSON_stringify (VObj [("init_data", VStr X)]) =
    Some ("{" ++ dquote ++ "init_data" ++ dquote ++ ":"
            ++ dquote ++ JSON_escape_all X ++ dquote ++ "}").
Proof.
  cbn [JSON_stringify join]. unfold JSON_quote. f_equal.
  rewrite !append_assoc. reflexivity.
Qed.

(** A truthy global is a defined one. *)
Lemma truthy_global (E : env) :
  ToBoolean (own_prop (VObj (window E)) "Telegram") = true ->
  lookup "Telegram" (window E) = Some (own_prop (VObj (window E)) "Telegram").
Proof.
  simpl. destruct (lookup "Telegram" (window E)); [reflexivity | discriminate].
Qed.

(** ** The monad *)

Lemma trace_bind_normal {A B} (t : list event) (a : A) (k : A -> M B) :
  bind (t, Normal a) k = ((t ++ trace (k a))%list, outcome (k a)).
Proof. unfold bind, trace, outcome. destruct (k a). reflexivity. Qed.

Lemma member_defined (o p : string) (v : value) :
  nullish v = false -> member o v p = ([EGet o p], Normal (own_prop v p)).
Proof. intros H. unfold member. rewrite H. reflexivity. Qed.

Lemma member_truthy (o p : string) (v : value) :
  ToBoolean v = true -> member o v p = ([EGet o p], Normal (own_prop v p)).
Proof. intros H. apply member_defined, truthy_not_nullish, H. Qed.

(** ** The probe *)

Lemma iife_bridge (E : env) (tg : value) :
  bridge E = Some tg ->
  iife E = ((probe_reads ++ trace (with_bridge E tg))%list,
            outcome (with_bridge E tg)).
Proof.
  unfold bridge. intros H.
  destruct (ToBoolean (own_prop (VObj (window E)) "Telegram")) eqn:HT; [|discriminate].
  destruct (ToBoolean (own_prop (own_prop (VObj (window E)) "Telegram") "WebApp")) eqn:Hw;
    [|discriminate].
  injection H as <-.
  pose proof (truthy_global E HT) as Hg.
  unfold iife, bridge_missing, or_else, global.
  rewrite Hg.
  rewrite (member_defined "window" "Telegram" (VObj (window E)) eq_refl).
  cbn [bind ret emit app]. rewrite HT. cbn [negb bind ret emit app].
  rewrite (member_truthy "Telegram" "WebApp" _ HT).
  cbn [bind ret emit app]. rewrite Hw. cbn [negb bind ret emit app].
  destruct (with_bridge E _) as [t r]. reflexivity.
Qed.

Lemma bridge_truthy (E : env) (tg : value) :
  bridge E = Some tg -> ToBoolean tg = true.
Proof.
  unfold bridge.
  destruct (ToBoolean (own_prop (VObj (window E)) "Telegram")); [|discriminate].
  destruct (ToBoolean (own_prop (own_prop (VObj (window E)) "Telegram") "WebApp")) eqn:Hw;
    [|discriminate].
  now intros [= <-].
Qed.

(** Without a bridge the function stops at its first guard, after one read
    ([window.Telegram] falsy) or three. *)
Lemma iife_no_bridge (E : env) :
  bridge E = None ->
  exists reads,
    iife E = ((reads ++ [EConsole Warn [VStr "Telegram WebApp API not found"]])%list,
              Normal tt)
    /\ (reads = [EGet "window" "Telegram"] \/ reads = probe_no_WebApp).
Proof.
  unfold bridge. intros H.
  destruct (ToBoolean (own_prop (VObj (window E)) "Telegram")) eqn:HT.
  - destruct (ToBoolean (own_prop (own_prop (VObj (window E)) "Telegram") "WebApp")) eqn:Hw;
      [discriminate|].
    exists probe_no_WebApp. split; [|now right].
    pose proof (truthy_global E HT) as Hg.
    unfold iife, bridge_missing, or_else, global. rewrite Hg.
    rewrite (member_defined "window" "Telegram" (VObj (window E)) eq_refl).
    cbn [bind ret emit app]. rewrite HT. cbn [negb bind ret emit app].
    rewrite (member_truthy "Telegram" "WebApp" _ HT).
    cbn [bind ret emit app]. rewrite Hw. reflexivity.
  - exists [EGet "window" "Telegram"]. split; [|now left].
    unfold iife, bridge_missing, or_else.
    rewrite (member_defined "window" "Telegram" (VObj (window E)) eq_refl).
    cbn [bind ret emit app]. rewrite HT. reflexivity.
Qed.

(** ** The handshake *)

Lemma call_ready (tg r : value) :
  ToBoolean tg = true -> own_prop tg "ready" = VFun false r ->
  call_method "tg" tg "ready" = (ready_events, Normal r).
Proof.
  intros Htg Hr. unfold call_method.
  rewrite (member_truthy "tg" "ready" _ Htg), Hr. reflexivity.
Qed.

Lemma initData_empty_falsy (tg : value) :
  ToBoolean tg = true -> ToBoolean (own_prop tg "initData") = false ->
  initData_empty tg = ([EGet "tg" "initData"], Normal true).
Proof.
  intros Htg Hd. unfold initData_empty, or_else.
  rewrite (member_truthy "tg" "initData" _ Htg).
  cbn [bind ret emit app]. rewrite Hd. reflexivity.
Qed.

Lemma initData_empty_truthy (tg : value) :
  ToBoolean tg = true -> ToBoolean (own_prop tg "initData") = true ->
  initData_empty tg =
    (guard_reads,
     Normal (strict_eq_num (own_prop (own_prop tg "initData") "length") 0)).
Proof.
  intros Htg Hd. unfold initData_empty, or_else.
  rewrite (member_truthy "tg" "initData" _ Htg).
  cbn [bind ret emit app]. rewrite Hd. cbn [negb bind ret emit app].
  rewrite (member_truthy "tg.initData" "length" _ Hd). reflexivity.
Qed.

Lemma chain_fetch (E : env) (r : request) :
  chain (fetch E r) =
    (EFetch r :: trace (settle (network E r)), outcome (settle (network E r))).
Proof.
  unfold settle, chain, fetch, then_, catch_, bind, trace, outcome.
  destruct (network E r) as [resp|reason].
  - destruct (on_response resp) as [t1 [v|e]]; cbn.
    + reflexivity.
    + reflexivity.
  - reflexivity.
Qed.

Lemma relay_spec (E : env) (tg : value) :
  ToBoolean tg = true ->
  relay E tg =
    (EGet "tg" "initData" :: EFetch (auth_request (own_prop tg "initData"))
       :: trace (settle (network E (auth_request (own_prop tg "initData")))),
     outcome (settle (network E (auth_request (own_prop tg "initData"))))).
Proof.
  intros Htg. unfold relay.
  rewrite (member_truthy "tg" "initData" _ Htg).
  cbn [bind ret emit app]. rewrite chain_fetch. reflexivity.
Qed.

(** ** The callbacks *)

Lemma settle_rejected (e : value) :
  settle (Abrupt e) = ([EConsole Error [VStr "Telegram auth failed"; e]], Normal tt).
Proof. reflexivity. Qed.

Lemma ok_iff (resp : response) : ok resp = true <-> 200 <= status resp <= 299.
Proof. unfold ok. rewrite andb_true_iff, !Z.leb_le. tauto. Qed.

Lemma not_ok_iff (resp : response) :
  ok resp = false <-> ~ 200 <= status resp <= 299.
Proof. rewrite <- ok_iff. destruct (ok resp); split; congruence. Qed.

Lemma settle_not_ok (resp : response) :
  ok resp = false ->
  settle (Normal resp) =
    ([EBody AsText;
      EConsole Error
        [VStr "Telegram auth failed";
         match text resp with
         | Normal txt => VError "Error" txt
         | Abrupt e => e
         end]],
     Normal tt).
Proof.
  intros H. unfold settle, chain, then_, catch_, on_response, await, resp_text.
  cbn [bind]. rewrite H. cbn [negb].
  destruct (text resp); reflexivity.
Qed.

Lemma settle_ok (resp : response) :
  ok resp = true ->
  settle (Normal resp) =
    ([EBody AsJson;
      match json resp with
      | Normal data => EConsole Log [VStr "Telegram auth OK"; data]
      | Abrupt e => EConsole Error [VStr "Telegram auth failed"; e]
      end],
     Normal tt).
Proof.
  intros H. unfold settle, chain, then_, catch_, on_response, resp_json.
  cbn [bind]. rewrite H. cbn [negb].
  destruct (json resp); reflexivity.
Qed.

(** The chain ends in [catch], whose handler only logs: whatever the
    settlement, the callbacks complete normally. *)
Lemma settle_shape (o : completion response) :
  settled_shape (trace (settle o)) /\ outcome (settle o) = Normal tt.
Proof.
  destruct o as [resp|e].
  - destruct (ok resp) eqn:H.
    + rewrite (settle_ok resp H). split; [|reflexivity].
      cbn [trace fst]. destruct (json resp); constructor.
    + rewrite (settle_not_ok resp H). split; [|reflexivity]. constructor.
  - rewrite settle_rejected. split; [constructor | reflexivity].
Qed.

(** ** The function from [tg.ready()] on *)

Lemma with_bridge_empty (E : env) (tg r : value) :
  ToBoolean tg = true -> own_prop tg "ready" = VFun false r ->
  ToBoolean (own_prop tg "initData") = false ->
  with_bridge E tg =
    ((ready_events
        ++ [EGet "tg" "initData"; EConsole Warn [VStr "No initData from Telegram"]])%list,
     Normal tt).
Proof.
  intros Htg Hr Hd. unfold with_bridge.
  rewrite (call_ready tg r Htg Hr), (initData_empty_falsy tg Htg Hd). reflexivity.
Qed.

Lemma with_bridge_zero_length (E : env) (tg r : value) :
  ToBoolean tg = true -> own_prop tg "ready" = VFun false r ->
  ToBoolean (own_prop tg "initData") = true ->
  strict_eq_num (own_prop (own_prop tg "initData") "length") 0 = true ->
  with_bridge E tg =
    ((ready_events ++ guard_reads
        ++ [EConsole Warn [VStr "No initData from Telegram"]])%list,
     Normal tt).
Proof.
  intros Htg Hr Hd Hn. unfold with_bridge.
  rewrite (call_ready tg r Htg Hr), (initData_empty_truthy tg Htg Hd), Hn.
  reflexivity.
Qed.

Lemma with_bridge_relay (E : env) (tg r : value) :
  ToBoolean tg = true -> own_prop tg "ready" = VFun false r ->
  ToBoolean (own_prop tg "initData") = true ->
  strict_eq_num (own_prop (own_prop tg "initData") "length") 0 = false ->
  with_bridge E tg =
    ((ready_events ++ guard_reads
        ++ EGet "tg" "initData" :: EFetch (auth_request (own_prop tg "initData"))
        :: trace (settle (network E (auth_request (own_prop tg "initData")))))%list,
     outcome (settle (network E (auth_request (own_prop tg "initData"))))).
Proof.
  intros Htg Hr Hd Hn. unfold with_bridge.
  rewrite (call_ready tg r Htg Hr), (initData_empty_truthy tg Htg Hd), Hn.
  cbn [bind]. rewrite (relay_spec E tg Htg). reflexivity.
Qed.

(** Every run has one of the five forms. *)
Lemma every_run (E : env) : run_shape (iife E).
Proof.
  destruct (bridge E) as [tg|] eqn:Hb.
  - pose proof (bridge_truthy E tg Hb) as Htg.
    rewrite (iife_bridge E tg Hb).
    destruct (own_prop tg "ready") as [| | | | | |throws r|] eqn:Hr.
    7: destruct throws.
    8: destruct (ToBoolean (own_prop tg "initData")) eqn:Hd.
    8: destruct (strict_eq_num (own_prop (own_prop tg "initData") "length") 0) eqn:Hn.
    all: try (unfold with_bridge, call_method;
              rewrite (member_truthy "tg" "ready" _ Htg), Hr;
              cbn [bind ret emit throw app trace outcome fst snd];
              solve [apply run_not_callable | apply run_ready_throws]).
    + rewrite (with_bridge_zero_length E tg r Htg Hr Hd Hn).
      cbn [trace outcome fst snd]. apply (run_empty guard_reads). now right.
    + rewrite (with_bridge_relay E tg r Htg Hr Hd Hn).
      cbn [trace outcome fst snd].
      destruct (settle_shape (network E (auth_request (own_prop tg "initData"))))
        as [Hs ->].
      apply run_relayed, Hs.
    + rewrite (with_bridge_empty E tg r Htg Hr Hd).
      cbn [trace outcome fst snd].
      apply (run_empty [EGet "tg" "initData"]). now left.
  - destruct (iife_no_bridge E Hb) as (reads & -> & Hreads).
    now apply run_missing.
Qed.

(** ** Every run, classified by its page *)

Lemma with_bridge_not_callable (E : env) (tg : value) :
  ToBoolean tg = true -> callable (own_prop tg "ready") = false ->
  with_bridge E tg =
    ([EGet "tg" "ready"], Abrupt (TypeError "tg.ready is not a function")).
Proof.
  intros Htg Hc. unfold with_bridge, call_method.
  rewrite (member_truthy "tg" "ready" _ Htg).
  destruct (own_prop tg "ready"); try discriminate; reflexivity.
Qed.

Lemma with_bridge_ready_throws (E : env) (tg e : value) :
  ToBoolean tg = true -> own_prop tg "ready" = VFun true e ->
  with_bridge E tg = (ready_events, Abrupt e).
Proof.
  intros Htg Hr. unfold with_bridge, call_method.
  rewrite (member_truthy "tg" "ready" _ Htg), Hr. reflexivity.
Qed.

Lemma classify_run (E : env) : run_of E.
Proof.
  destruct (bridge E) as [tg|] eqn:Hb.
  - pose proof (bridge_truthy E tg Hb) as Htg.
    pose proof (iife_bridge E tg Hb) as Hrun.
    destruct (callable (own_prop tg "ready")) eqn:Hc.
    + destruct (own_prop tg "ready") as [| | | | | |throws r|] eqn:Hr;
        try discriminate.
      destruct throws.
      * apply (of_ready_throws E tg r Hb Hr).
        now rewrite Hrun, (with_bridge_ready_throws E tg r Htg Hr).
      * destruct (ToBoolean (own_prop tg "initData")) eqn:Hd.
        -- destruct (strict_eq_num (own_prop (own_prop tg "initData") "length") 0)
             eqn:Hn.
           ++ apply (of_empty E tg r guard_reads Hb Hr); [right; now repeat split|].
              now rewrite Hrun, (with_bridge_zero_length E tg r Htg Hr Hd Hn).
           ++ apply (of_relayed E tg r Hb Hr Hd Hn).
              rewrite Hrun, (with_bridge_relay E tg r Htg Hr Hd Hn).
              cbn [trace outcome fst snd].
              now destruct (settle_shape
                              (network E (auth_request (own_prop tg "initData"))))
                as [_ ->].
        -- apply (of_empty E tg r [EGet "tg" "initData"] Hb Hr);
             [left; now split|].
           now rewrite Hrun, (with_bridge_empty E tg r Htg Hr Hd).
    + apply (of_not_callable E tg Hb Hc).
      now rewrite Hrun, (with_bridge_not_callable E tg Htg Hc).
  - destruct (iife_no_bridge E Hb) as (reads & Hrun & Hreads).
    now apply (of_missing E reads).
Qed.

Ltac run_cases E :=
  generalize (every_run E); generalize (iife E);
  intros ? [reads [-> | ->] | e | e | reads [-> | ->] | d callbacks [e | e | data | e]].

(** ** Order of events *)

Lemma precedesb_sound (p q : event -> bool) (t : list event) :
  forall seen,
    precedesb p q seen t = true ->
    forall before e after,
      t = (before ++ e :: after)%list -> q e = true ->
      seen || existsb p before = true.
Proof.
  induction t as [|x t IH]; intros seen H before e after Heq Hq.
  - destruct before; discriminate.
  - cbn [precedesb] in H. apply andb_true_iff in H as [Hx Ht].
    destruct before as [|b before]; cbn [app] in Heq; injection Heq as -> ->.
    + rewrite Hq in Hx. cbn in Hx. rewrite Hx. reflexivity.
    + specialize (IH _ Ht before e after eq_refl Hq).
      cbn [existsb]. rewrite orb_assoc. exact IH.
Qed.

Lemma precedesb_precedes (p q : event -> bool) (t : list event) :
  precedesb p q false t = true -> precedes p q t.
Proof.
  intros H before e after Heq Hq.
  apply (precedesb_sound p q t false H before e after Heq Hq).
Qed.

Lemma precedes_prefix (p q : event -> bool) (t' post : list event) :
  precedes p q (t' ++ post) -> precedes p q t'.
Proof.
  intros H before e after Heq Hq.
  apply (H before e (after ++ post)%list); [|exact Hq].
  rewrite Heq, <- app_assoc. reflexivity.
Qed.

Lemma console_lines_app (t1 t2 : list event) :
  console_lines (t1 ++ t2) = (console_lines t1 ++ console_lines t2)%list.
Proof.
  induction t1 as [|e t1 IH]; [reflexivity|].
  destruct e; cbn [app console_lines]; rewrite IH; reflexivity.
Qed.

(** ** The claims *)

Section PresentBridge.

Variables (E : env) (tg : value).
Hypothesis Hbridge : bridge E = Some tg.
Hypothesis Hready : exposes_ready tg.

Lemma run_when_initData_falsy :
  ToBoolean (own_prop tg "initData") = false ->
  iife E =
    ((probe_reads ++ ready_events
        ++ [EGet "tg" "initData"; EConsole Warn [VStr "No initData from Telegram"]])%list,
     Normal tt).
Proof.
  intros Hd. destruct Hready as [r Hr].
  rewrite (iife_bridge E tg Hbridge).
  rewrite (with_bridge_empty E tg r (bridge_truthy E tg Hbridge) Hr Hd).
  reflexivity.
Qed.

Lemma run_when_initData_string (X : string) :
  own_prop tg "initData" = VStr X -> X <> EmptyString ->
  iife E =
    ((probe_reads ++ ready_events ++ guard_reads
        ++ EGet "tg" "initData" :: EFetch (auth_request (VStr X))
        :: trace (settle (network E (auth_request (VStr X)))))%list,
     Normal tt).
Proof.
  intros Hd HX. destruct Hready as [r Hr].
  rewrite (iife_bridge E tg Hbridge).
  rewrite (with_bridge_relay E tg r (bridge_truthy E tg Hbridge) Hr).
  - rewrite Hd. cbn [trace outcome fst snd].
    now destruct (settle_shape (network E (auth_request (VStr X)))) as [_ ->].
  - rewrite Hd. now apply truthy_string.
  - rewrite Hd. now apply string_length_nonzero.
Qed.

Lemma relayed_requests (X : string) :
  own_prop tg "initData" = VStr X -> X <> EmptyString ->
  requests (trace (iife E)) = [auth_request (VStr X)].
Proof.
  intros Hd HX. rewrite (run_when_initData_string X Hd HX). cbn [trace fst].
  destruct (settle_shape (network E (auth_request (VStr X)))) as [Hs _].
  destruct Hs; reflexivity.
Qed.

(** C1.  When the page provides a bridge whose [initData] is a non-empty
    string [X], the run issues exactly one request: a POST to
    [/api/v1/auth/telegram-webapp] with the header
    [Content-Type: application/json], credentials included, and as body the
    JSON text of the object [{init_data: X}]. *)
Theorem one_post_of_init_data (X : string) :
  own_prop tg "initData" = VStr X -> X <> EmptyString ->
  requests (trace (iife E)) =
    [ {| url := "/api/v1/auth/telegram-webapp";
         method := "POST";
         headers := [("Content-Type", "application/json")];
         credentials := "include";
         body := JSON_stringify (VObj [("init_data", VStr X)]) |} ]
  /\ JSON_stringify (VObj [("init_data", VStr X)]) =
       Some ("{" ++ dquote ++ "init_data" ++ dquote ++ ":"
               ++ dquote ++ JSON_escape_all X ++ dquote ++ "}").
Proof.
  intros Hd HX. split; [|apply stringify_init_data].
  rewrite (relayed_requests X Hd HX). reflexivity.
Qed.

(** C3.  When the bridge is present and its [initData] is the empty string,
    the run calls [ready()], logs the warning, issues no request and
    returns. *)
Theorem empty_init_data_warns :
  own_prop tg "initData" = VStr EmptyString ->
  effects (trace (iife E)) =
    [ECall "tg" "ready"; EConsole Warn [VStr "No initData from Telegram"]]
  /\ requests (trace (iife E)) = []
  /\ outcome (iife E) = Normal tt.
Proof.
  intros Hd. rewrite run_when_initData_falsy by (rewrite Hd; reflexivity).
  repeat split.
Qed.

End PresentBridge.

(** C2.  When the page has no bridge object, the only effect of the run is
    the warning on the console; no request is issued and the function
    returns. *)
Theorem no_bridge_warns (E : env) :
  bridge E = None ->
  effects (trace (iife E)) =
    [EConsole Warn [VStr "Telegram WebApp API not found"]]
  /\ requests (trace (iife E)) = []
  /\ outcome (iife E) = Normal tt.
Proof.
  intros Hb. destruct (iife_no_bridge E Hb) as (reads & -> & [-> | ->]);
    repeat split.
Qed.

Lemma one_post_of_init_data_witness :
  requests (trace (iife (page (VStr "X") offline))) =
    [ {| url := "/api/v1/auth/telegram-webapp";
         method := "POST";
         headers := [("Content-Type", "application/json")];
         credentials := "include";
         body := JSON_stringify (VObj [("init_data", VStr "X")]) |} ]
  /\ JSON_stringify (VObj [("init_data", VStr "X")]) =
       Some ("{" ++ dquote ++ "init_data" ++ dquote ++ ":"
               ++ dquote ++ "X" ++ dquote ++ "}").
Proof.
  apply (one_post_of_init_data (page (VStr "X") offline) (web_app (VStr "X")));
    [reflexivity | exists VUndefined; reflexivity | reflexivity | discriminate].
Defined.

Lemma empty_init_data_warns_witness :
  effects (trace (iife (page (VStr EmptyString) offline))) =
    [ECall "tg" "ready"; EConsole Warn [VStr "No initData from Telegram"]]
  /\ requests (trace (iife (page (VStr EmptyString) offline))) = []
  /\ outcome (iife (page (VStr EmptyString) offline)) = Normal tt.
Proof.
  apply (empty_init_data_warns (page (VStr EmptyString) offline)
           (web_app (VStr EmptyString)));
    [reflexivity | exists VUndefined; reflexivity | reflexivity].
Defined.

Lemma no_bridge_warns_witness :
  effects (trace (iife (mkEnv [] offline))) =
    [EConsole Warn [VStr "Telegram WebApp API not found"]]
  /\ requests (trace (iife (mkEnv [] offline))) = []
  /\ outcome (iife (mkEnv [] offline)) = Normal tt.
Proof.
  apply (no_bridge_warns (mkEnv [] offline)). reflexivity.
Defined.

Section Relayed.

Variables (E : env) (tg : value) (X : string).
Hypothesis Hbridge : bridge E = Some tg.
Hypothesis Hready : exposes_ready tg.
Hypothesis HinitData : own_prop tg "initData" = VStr X.
Hypothesis Hnonempty : X <> EmptyString.

Lemma relayed_effects :
  effects (trace (iife E)) =
    (ECall "tg" "ready" :: EFetch (auth_request (VStr X))
       :: trace (settle (network E (auth_request (VStr X)))))
  /\ outcome (iife E) = Normal tt.
Proof.
  rewrite (run_when_initData_string E tg Hbridge Hready X HinitData Hnonempty).
  split; [|reflexivity]. cbn [trace fst].
  destruct (settle_shape (network E (auth_request (VStr X)))) as [Hs _].
  destruct Hs; reflexivity.
Qed.

(** C4.  When the response has a status outside 200-299 and its body reads
    as the text [txt], the callback reads the body as text and throws an
    Error carrying [txt]; the [catch] handler logs that error on the
    console; the run ends there, normally, with the one request it made. *)
Theorem failure_status_is_logged (resp : response) (txt : string) :
  network E (auth_request (VStr X)) = Normal resp ->
  ~ 200 <= status resp <= 299 ->
  text resp = Normal txt ->
  on_response resp = ([EBody AsText], Abrupt (VError "Error" txt))
  /\ effects (trace (iife E)) =
       [ECall "tg" "ready"; EFetch (auth_request (VStr X)); EBody AsText;
        EConsole Error [VStr "Telegram auth failed"; VError "Error" txt]]
  /\ outcome (iife E) = Normal tt.
Proof.
  intros Hnet Hstatus Htxt. apply not_ok_iff in Hstatus.
  split.
  - unfold on_response, await, resp_text. rewrite Hstatus. cbn [negb bind].
    rewrite Htxt. reflexivity.
  - destruct relayed_effects as [-> ->]. split; [|reflexivity].
    rewrite Hnet, (settle_not_ok resp Hstatus), Htxt. reflexivity.
Qed.

(** C5.  When the response has a status in 200-299 and its body parses as
    the JSON value [data], the callbacks parse the body and log [data] as
    the success payload; the run makes no request but the first. *)
Theorem success_payload_is_logged (resp : response) (data : value) :
  network E (auth_request (VStr X)) = Normal resp ->
  200 <= status resp <= 299 ->
  json resp = Normal data ->
  effects (trace (iife E)) =
    [ECall "tg" "ready"; EFetch (auth_request (VStr X)); EBody AsJson;
     EConsole Log [VStr "Telegram auth OK"; data]]
  /\ requests (trace (iife E)) = [auth_request (VStr X)]
  /\ outcome (iife E) = Normal tt.
Proof.
  intros Hnet Hstatus Hjson. apply ok_iff in Hstatus.
  assert (Heff : effects (trace (iife E)) =
    [ECall "tg" "ready"; EFetch (auth_request (VStr X)); EBody AsJson;
     EConsole Log [VStr "Telegram auth OK"; data]]).
  { destruct relayed_effects as [-> _].
    rewrite Hnet, (settle_ok resp Hstatus), Hjson. reflexivity. }
  split; [exact Heff|]. split; [|apply relayed_effects].
  rewrite (run_when_initData_string E tg Hbridge Hready X HinitData Hnonempty).
  cbn [trace fst]. rewrite Hnet, (settle_ok resp Hstatus), Hjson. reflexivity.
Qed.

(** C10.  When the response has a status in 200-299 and its body does not
    parse as JSON ([resp.json()] rejects with [e]), nothing is logged as a
    success: the one console line of the run is the [catch] handler's
    failure message with [e]. *)
Theorem invalid_json_is_logged_as_failure (resp : response) (e : value) :
  network E (auth_request (VStr X)) = Normal resp ->
  200 <= status resp <= 299 ->
  json resp = Abrupt e ->
  console_lines (trace (iife E)) =
    [(Error, [VStr "Telegram auth failed"; e])]
  /\ effects (trace (iife E)) =
       [ECall "tg" "ready"; EFetch (auth_request (VStr X)); EBody AsJson;
        EConsole Error [VStr "Telegram auth failed"; e]]
  /\ outcome (iife E) = Normal tt.
Proof.
  intros Hnet Hstatus Hjson. apply ok_iff in Hstatus.
  split; [|split; [|apply relayed_effects]].
  - rewrite (run_when_initData_string E tg Hbridge Hready X HinitData Hnonempty).
    cbn [trace fst]. rewrite Hnet, (settle_ok resp Hstatus), Hjson. reflexivity.
  - destruct relayed_effects as [-> _].
    rewrite Hnet, (settle_ok resp Hstatus), Hjson. reflexivity.
Qed.

End Relayed.

Lemma initData_missing_undefined (tg : value) :
  initData_missing tg -> own_prop tg "initData" = VUndefined.
Proof.
  destruct tg; cbn [initData_missing own_prop]; try contradiction.
  intros [-> | ->]; reflexivity.
Qed.

Lemma missing_global_no_bridge (E : env) :
  Telegram_missing E \/ WebApp_missing E -> bridge E = None.
Proof.
  unfold Telegram_missing, WebApp_missing, bridge.
  intros [H | (props & H & Hw)]; cbn [own_prop]; rewrite H.
  - reflexivity.
  - cbn [ToBoolean own_prop]. rewrite Hw. reflexivity.
Qed.

(** C9.  A bridge object whose [initData] field is absent or undefined takes
    the empty-payload path: [ready()] is called, the warning is logged, no
    request is issued, no property of [tg.initData] is read and the
    function returns without an exception.  A page without the global
    [Telegram], or whose [Telegram] has no [WebApp] field, takes the
    environment-missing path. *)
Theorem missing_fields_take_guard_paths (E : env) :
  (forall tg : value,
     bridge E = Some tg -> exposes_ready tg -> initData_missing tg ->
     effects (trace (iife E)) =
       [ECall "tg" "ready"; EConsole Warn [VStr "No initData from Telegram"]]
     /\ requests (trace (iife E)) = []
     /\ existsb (on_object "tg.initData") (trace (iife E)) = false
     /\ outcome (iife E) = Normal tt)
  /\ (Telegram_missing E \/ WebApp_missing E ->
      effects (trace (iife E)) =
        [EConsole Warn [VStr "Telegram WebApp API not found"]]
      /\ requests (trace (iife E)) = []
      /\ outcome (iife E) = Normal tt).
Proof.
  split.
  - intros tg Hb Hr Hm.
    rewrite (run_when_initData_falsy E tg Hb Hr)
      by (rewrite (initData_missing_undefined tg Hm); reflexivity).
    repeat split.
  - intros Hm. pose proof (missing_global_no_bridge E Hm) as Hb.
    destruct (iife_no_bridge E Hb) as (reads & -> & [-> | ->]); repeat split.
Qed.

(** The function from [tg.ready()] on looks at the bridge through its
    [ready] and [initData] properties only, and at [ready] only to call
    it. *)
Lemma with_bridge_ignores_result (E E' : env) (tg tg' r r' : value) :
  ToBoolean tg = true -> ToBoolean tg' = true ->
  own_prop tg "ready" = VFun false r -> own_prop tg' "ready" = VFun false r' ->
  own_prop tg "initData" = own_prop tg' "initData" ->
  network E = network E' ->
  with_bridge E' tg' = with_bridge E tg.
Proof.
  intros Ht Ht' Hr Hr' Hd Hn.
  destruct (ToBoolean (own_prop tg "initData")) eqn:Hb.
  - destruct (strict_eq_num (own_prop (own_prop tg "initData") "length") 0) eqn:Hl.
    + rewrite (with_bridge_zero_length E tg r Ht Hr Hb Hl).
      rewrite Hd in Hb, Hl.
      now rewrite (with_bridge_zero_length E' tg' r' Ht' Hr' Hb Hl).
    + rewrite (with_bridge_relay E tg r Ht Hr Hb Hl).
      rewrite Hd in Hb, Hl.
      rewrite (with_bridge_relay E' tg' r' Ht' Hr' Hb Hl).
      now rewrite Hd, Hn.
  - rewrite (with_bridge_empty E tg r Ht Hr Hb).
    rewrite Hd in Hb.
    now rewrite (with_bridge_empty E' tg' r' Ht' Hr' Hb).
Qed.

Lemma ready_is_called (E : env) (tg : value) (throws : bool) (r : value) :
  bridge E = Some tg -> own_prop tg "ready" = VFun throws r ->
  existsb is_ready_call (trace (iife E)) = true.
Proof.
  intros Hb Hr. rewrite (iife_bridge E tg Hb). cbn [trace fst].
  pose proof (bridge_truthy E tg Hb) as Htg.
  unfold with_bridge. destruct throws.
  - unfold call_method. rewrite (member_truthy "tg" "ready" _ Htg), Hr.
    reflexivity.
  - rewrite (call_ready tg r Htg Hr), trace_bind_normal. reflexivity.
Qed.

Lemma requests_app (t1 t2 : list event) :
  requests (t1 ++ t2) = (requests t1 ++ requests t2)%list.
Proof.
  induction t1 as [|e t1 IH]; [reflexivity|].
  destruct e; cbn [app requests]; rewrite IH; reflexivity.
Qed.

(** ** What a run leaves on the page *)

Lemma no_set_no_change (t : list event) (w : list (string * value)) :
  existsb is_set t = false ->
  fold_left (fun w e => after_event e w) t w = w.
Proof.
  induction t as [|e t IH]; intros H; [reflexivity|].
  cbn [existsb] in H. apply orb_false_iff in H as [He Ht].
  cbn [fold_left]. destruct e; try discriminate; exact (IH Ht).
Qed.

Lemma page_after_no_set (t : list event) (E : env) :
  existsb is_set t = false -> page_after t E = E.
Proof.
  intros H. unfold page_after. rewrite (no_set_no_change t _ H).
  destruct E. reflexivity.
Qed.

Lemma no_set_in_prefix (t' post : list event) :
  existsb is_set (t' ++ post) = false -> existsb is_set t' = false.
Proof. rewrite existsb_app. intros H. now apply orb_false_iff in H. Qed.

Lemma invoke_twice_spec (E : env) :
  trace (invoke_twice E) =
    (trace (iife E) ++ trace (iife (page_after (trace (iife E)) E)))%list
  /\ outcome (invoke_twice E) = outcome (iife (page_after (trace (iife E)) E)).
Proof.
  unfold invoke_twice. destruct (iife E) as [t1 r1]. cbn [trace fst].
  destruct (iife (page_after t1 E)) as [t2 r2]. split; reflexivity.
Qed.

(** C7.  On a page whose bridge has a non-empty [initData], the function
    assigns nothing, so at whatever point of a run a second invocation
    starts, also while the first request is pending, it finds the page as
    the first invocation found it, and runs as the first did.  Two
    invocations in sequence issue two requests, each the request of a
    single invocation, and the trace of the pair is the trace of one
    invocation twice over. *)
Theorem second_invocation_repeats_first (E : env) (tg : value) (X : string) :
  bridge E = Some tg -> exposes_ready tg ->
  own_prop tg "initData" = VStr X -> X <> EmptyString ->
  (forall t' post : list event,
     trace (iife E) = (t' ++ post)%list -> page_after t' E = E)
  /\ iife (page_after (trace (iife E)) E) = iife E
  /\ requests (trace (invoke_twice E)) =
       [auth_request (VStr X); auth_request (VStr X)]
  /\ trace (invoke_twice E) = (trace (iife E) ++ trace (iife E))%list
  /\ outcome (invoke_twice E) = outcome (iife E).
Proof.
  intros Hb Hr Hd HX.
  assert (Hset : existsb is_set (trace (iife E)) = false).
  { rewrite (run_when_initData_string E tg Hb Hr X Hd HX). cbn [trace fst].
    destruct (settle_shape (network E (auth_request (VStr X)))) as [Hs _].
    destruct Hs; reflexivity. }
  assert (Hsame : page_after (trace (iife E)) E = E)
    by exact (page_after_no_set _ E Hset).
  destruct (invoke_twice_spec E) as [Ht Ho]. rewrite Hsame in Ht, Ho.
  split; [|split; [|split; [|split]]].
  - intros t' post Heq. apply page_after_no_set.
    rewrite Heq in Hset. exact (no_set_in_prefix t' post Hset).
  - now rewrite Hsame.
  - rewrite Ht, requests_app, (relayed_requests E tg Hb Hr X Hd HX). reflexivity.
  - exact Ht.
  - exact Ho.
Qed.

Lemma check_follows_ready (E : env) (tg r : value) :
  bridge E = Some tg -> own_prop tg "ready" = VFun false r ->
  exists rest : list event,
    trace (iife E) =
      (probe_reads ++ ready_events ++ EGet "tg" "initData" :: rest)%list.
Proof.
  intros Hb Hr. pose proof (bridge_truthy E tg Hb) as Htg.
  rewrite (iife_bridge E tg Hb). cbn [trace fst].
  destruct (ToBoolean (own_prop tg "initData")) eqn:Hd.
  - destruct (strict_eq_num (own_prop (own_prop tg "initData") "length") 0) eqn:Hn.
    + rewrite (with_bridge_zero_length E tg r Htg Hr Hd Hn).
      eexists. reflexivity.
    + rewrite (with_bridge_relay E tg r Htg Hr Hd Hn).
      eexists. reflexivity.
  - rewrite (with_bridge_empty E tg r Htg Hr Hd). eexists. reflexivity.
Qed.

Lemma falsy_initData_sends_nothing (E : env) (tg : value) :
  bridge E = Some tg -> ToBoolean (own_prop tg "initData") = false ->
  requests (trace (iife E)) = [].
Proof.
  intros Hb Hd.
  destruct (classify_run E)
    as [reads Hb' [-> | ->] Hrun | tg' Hb' Hc Hrun | tg' e' Hb' Hr Hrun
       | tg' r reads Hb' Hr [[_ ->] | (_ & _ & ->)] Hrun | tg' r Hb' Hr Hd' Hn Hrun];
    rewrite Hrun; try reflexivity.
  rewrite Hb in Hb'. injection Hb' as <-. congruence.
Qed.

(** C6.  In every run the first event is the presence check; a call of
    [ready()] comes after a presence check, a read of [tg.initData] after
    the call of [ready()], and the request after a read of [tg.initData]
    and after the length test that only the guard makes, so after all
    three.  [ready()] is called whenever the bridge is present and has it,
    whatever [initData] holds, and what it returns is not looked at: two
    pages that differ only there run alike.  Once [ready()] has returned
    the guard is the next thing to run: its read of [tg.initData] is the
    event after the call; when that value is falsy no request follows, and
    when it is a non-empty string the request comes after the guard's
    three reads and the read that builds the body. *)
Theorem guards_run_in_order (E : env) :
  hd_error (trace (iife E)) = Some (EGet "window" "Telegram")
  /\ precedes is_presence_check is_ready_call (trace (iife E))
  /\ precedes is_ready_call is_initData_check (trace (iife E))
  /\ precedes is_initData_check is_fetch (trace (iife E))
  /\ precedes is_ready_call is_fetch (trace (iife E))
  /\ precedes is_presence_check is_fetch (trace (iife E))
  /\ precedes is_length_check is_fetch (trace (iife E))
  /\ (forall (tg : value) (throws : bool) (r : value),
        bridge E = Some tg -> own_prop tg "ready" = VFun throws r ->
        existsb is_ready_call (trace (iife E)) = true)
  /\ (forall (E' : env) (tg tg' r r' : value),
        bridge E = Some tg -> bridge E' = Some tg' ->
        own_prop tg "ready" = VFun false r ->
        own_prop tg' "ready" = VFun false r' ->
        own_prop tg "initData" = own_prop tg' "initData" ->
        network E = network E' ->
        iife E' = iife E)
  /\ (forall tg r : value,
        bridge E = Some tg -> own_prop tg "ready" = VFun false r ->
        exists rest : list event,
          trace (iife E) =
            (probe_reads ++ ready_events ++ EGet "tg" "initData" :: rest)%list)
  /\ (forall tg : value,
        bridge E = Some tg -> ToBoolean (own_prop tg "initData") = false ->
        requests (trace (iife E)) = [])
  /\ (forall (tg r : value) (X : string),
        bridge E = Some tg -> own_prop tg "ready" = VFun false r ->
        own_prop tg "initData" = VStr X -> X <> EmptyString ->
        exists callbacks : list event,
          trace (iife E) =
            (probe_reads ++ ready_events ++ guard_reads
               ++ EGet "tg" "initData" :: EFetch (auth_request (VStr X))
               :: callbacks)%list).
Proof.
  assert (Horder :
    hd_error (trace (iife E)) = Some (EGet "window" "Telegram")
    /\ precedes is_presence_check is_ready_call (trace (iife E))
    /\ precedes is_ready_call is_initData_check (trace (iife E))
    /\ precedes is_initData_check is_fetch (trace (iife E))
    /\ precedes is_ready_call is_fetch (trace (iife E))
    /\ precedes is_presence_check is_fetch (trace (iife E))
    /\ precedes is_length_check is_fetch (trace (iife E))).
  { run_cases E; cbn [trace fst];
      (split; [reflexivity | repeat split; apply precedesb_precedes; reflexivity]). }
  destruct Horder as (H1 & H2 & H3 & H4 & H5 & H6 & H7).
  repeat (split; [assumption|]). split; [|split; [|split; [|split]]].
  - intros tg throws r Hb Hr. exact (ready_is_called E tg throws r Hb Hr).
  - intros E' tg tg' r r' Hb Hb' Hr Hr' Hd Hn.
    rewrite (iife_bridge E tg Hb), (iife_bridge E' tg' Hb').
    now rewrite (with_bridge_ignores_result E E' tg tg' r r'
                   (bridge_truthy E tg Hb) (bridge_truthy E' tg' Hb')
                   Hr Hr' Hd Hn).
  - intros tg r Hb Hr. exact (check_follows_ready E tg r Hb Hr).
  - intros tg Hb Hd. exact (falsy_initData_sends_nothing E tg Hb Hd).
  - intros tg r X Hb Hr Hd HX.
    rewrite (run_when_initData_string E tg Hb (ex_intro _ r Hr) X Hd HX).
    eexists. reflexivity.
Qed.

(** C8, as the code has it.  On a page whose [initData] is a string or a
    falsy value, each side effect of the run is the call of [ready()] on
    the bridge, the request, the reading of the response body or a console
    line; there is at most one call of [ready()] and at most one request;
    no property of any host object is assigned (the bridge included) and
    nothing of [document] (the DOM, [document.cookie]) is read, assigned or
    called.  Other values of [initData] are left out: the built-in that
    writes the body may call into such a value. *)
Theorem frame_of_a_run (E : env) :
  initData_as_specified E ->
  forallb (fun e => is_ready_call e || is_network_or_console e)
    (effects (trace (iife E))) = true
  /\ (length (filter is_ready_call (trace (iife E))) <= 1)%nat
  /\ (length (requests (trace (iife E))) <= 1)%nat
  /\ existsb is_set (trace (iife E)) = false
  /\ existsb (on_object "document") (trace (iife E)) = false.
Proof.
  intros _. run_cases E; cbn [trace fst]; repeat split; cbn; lia.
Qed.

(** C8, as stated, fails on a page whose bridge has an empty [initData]: the
    run calls [tg.ready()], which is neither a network request nor a
    console line. *)
Lemma ready_call_is_an_effect :
  ~ network_and_console_only (trace (iife (page (VStr EmptyString) offline))).
Proof.
  intros [H _]. vm_compute in H. discriminate.
Qed.

(** ** The scenarios of the specification, as instances *)

Lemma failure_status_is_logged_witness :
  on_response resp_401 =
    ([EBody AsText], Abrupt (VError "Error" "invalid signature"))
  /\ effects (trace (iife (page (VStr "X") (replies resp_401)))) =
       [ECall "tg" "ready"; EFetch (auth_request (VStr "X")); EBody AsText;
        EConsole Error
          [VStr "Telegram auth failed"; VError "Error" "invalid signature"]]
  /\ outcome (iife (page (VStr "X") (replies resp_401))) = Normal tt.
Proof.
  apply (failure_status_is_logged (page (VStr "X") (replies resp_401))
           (web_app (VStr "X")) "X")
    with (resp := resp_401) (txt := "invalid signature");
    [reflexivity | exists VUndefined; reflexivity | reflexivity | discriminate
    | reflexivity | simpl; lia | reflexivity].
Defined.

Lemma success_payload_is_logged_witness :
  effects (trace (iife (page (VStr "X") (replies resp_200)))) =
    [ECall "tg" "ready"; EFetch (auth_request (VStr "X")); EBody AsJson;
     EConsole Log [VStr "Telegram auth OK"; VObj [("ok", VBool true)]]]
  /\ requests (trace (iife (page (VStr "X") (replies resp_200)))) =
       [auth_request (VStr "X")]
  /\ outcome (iife (page (VStr "X") (replies resp_200))) = Normal tt.
Proof.
  apply (success_payload_is_logged (page (VStr "X") (replies resp_200))
           (web_app (VStr "X")) "X")
    with (resp := resp_200) (data := VObj [("ok", VBool true)]);
    [reflexivity | exists VUndefined; reflexivity | reflexivity | discriminate
    | reflexivity | simpl; lia | reflexivity].
Defined.

Lemma invalid_json_is_logged_as_failure_witness :
  console_lines (trace (iife (page (VStr "X") (replies resp_200_html)))) =
    [(Error,
      [VStr "Telegram auth failed";
       VError "SyntaxError" "Unexpected token < in JSON"])]
  /\ effects (trace (iife (page (VStr "X") (replies resp_200_html)))) =
       [ECall "tg" "ready"; EFetch (auth_request (VStr "X")); EBody AsJson;
        EConsole Error
          [VStr "Telegram auth failed";
           VError "SyntaxError" "Unexpected token < in JSON"]]
  /\ outcome (iife (page (VStr "X") (replies resp_200_html))) = Normal tt.
Proof.
  apply (invalid_json_is_logged_as_failure
           (page (VStr "X") (replies resp_200_html)) (web_app (VStr "X")) "X")
    with (resp := resp_200_html)
         (e := VError "SyntaxError" "Unexpected token < in JSON");
    [reflexivity | exists VUndefined; reflexivity | reflexivity | discriminate
    | reflexivity | simpl; lia | reflexivity].
Defined.

Lemma missing_fields_take_guard_paths_witness :
  (effects (trace (iife page_without_initData)) =
     [ECall "tg" "ready"; EConsole Warn [VStr "No initData from Telegram"]]
   /\ outcome (iife page_without_initData) = Normal tt)
  /\ (effects (trace (iife (page VUndefined offline))) =
        [ECall "tg" "ready"; EConsole Warn [VStr "No initData from Telegram"]]
      /\ outcome (iife (page VUndefined offline)) = Normal tt)
  /\ outcome (iife page_without_Telegram) = Normal tt
  /\ effects (trace (iife page_without_WebApp)) =
       [EConsole Warn [VStr "Telegram WebApp API not found"]].
Proof.
  split; [|split; [|split]].
  - destruct (proj1 (missing_fields_take_guard_paths page_without_initData)
                (VObj [("ready", VFun false VUndefined)]))
      as (H1 & _ & _ & H2);
      [reflexivity | exists VUndefined; reflexivity | left; reflexivity |].
    exact (conj H1 H2).
  - destruct (proj1 (missing_fields_take_guard_paths (page VUndefined offline))
                (web_app VUndefined))
      as (H1 & _ & _ & H2);
      [reflexivity | exists VUndefined; reflexivity | right; reflexivity |].
    exact (conj H1 H2).
  - apply (proj2 (missing_fields_take_guard_paths page_without_Telegram)).
    left. reflexivity.
  - apply (proj2 (missing_fields_take_guard_paths page_without_WebApp)).
    right. exists []. split; reflexivity.
Defined.

Lemma second_invocation_repeats_first_witness :
  iife (page_after (trace (iife (page (VStr "X") (replies resp_200))))
          (page (VStr "X") (replies resp_200))) =
    iife (page (VStr "X") (replies resp_200))
  /\ requests (trace (invoke_twice (page (VStr "X") (replies resp_200)))) =
       [auth_request (VStr "X"); auth_request (VStr "X")].
Proof.
  destruct (second_invocation_repeats_first (page (VStr "X") (replies resp_200))
              (web_app (VStr "X")) "X")
    as (_ & H2 & H3 & _);
    [reflexivity | exists VUndefined; reflexivity | reflexivity | discriminate |].
  exact (conj H2 H3).
Defined.

Lemma guards_run_in_order_witness :
  existsb is_ready_call (trace (iife (page (VStr EmptyString) offline))) = true
  /\ iife (page_ready_returns (VNum 1) (VStr "X") offline) =
       iife (page (VStr "X") offline)
  /\ requests (trace (iife (page (VStr EmptyString) offline))) = []
  /\ (exists rest : list event,
        trace (iife (page (VStr EmptyString) offline)) =
          (probe_reads ++ ready_events ++ EGet "tg" "initData" :: rest)%list)
  /\ (exists callbacks : list event,
        trace (iife (page (VStr "X") offline)) =
          (probe_reads ++ ready_events ++ guard_reads
             ++ EGet "tg" "initData" :: EFetch (auth_request (VStr "X"))
             :: callbacks)%list).
Proof.
  destruct (guards_run_in_order (page (VStr EmptyString) offline))
    as (_ & _ & _ & _ & _ & _ & _ & Hcall & _ & Hnext & Hnone & _).
  destruct (guards_run_in_order (page (VStr "X") offline))
    as (_ & _ & _ & _ & _ & _ & _ & _ & Hsame & _ & _ & Hsend).
  split; [|split; [|split; [|split]]].
  - apply (Hcall (web_app (VStr EmptyString)) false VUndefined); reflexivity.
  - apply (Hsame (page_ready_returns (VNum 1) (VStr "X") offline)
             (web_app (VStr "X"))
             (VObj [("initData", VStr "X"); ("ready", VFun false (VNum 1))])
             VUndefined (VNum 1)); reflexivity.
  - apply (Hnone (web_app (VStr EmptyString))); reflexivity.
  - apply (Hnext (web_app (VStr EmptyString)) VUndefined); reflexivity.
  - apply (Hsend (web_app (VStr "X")) VUndefined "X");
      [reflexivity | reflexivity | reflexivity | discriminate].
Defined.

Lemma frame_of_a_run_witness :
  forallb (fun e => is_ready_call e || is_network_or_console e)
    (effects (trace (iife (page (VStr "X") (replies resp_200))))) = true
  /\ (length (filter is_ready_call
                (trace (iife (page (VStr "X") (replies resp_200))))) <= 1)%nat
  /\ (length (requests (trace (iife (page (VStr "X") (replies resp_200)))))
      <= 1)%nat
  /\ existsb is_set (trace (iife (page (VStr "X") (replies resp_200)))) = false
  /\ existsb (on_object "document")
       (trace (iife (page (VStr "X") (replies resp_200)))) = false.
Proof.
  apply (frame_of_a_run (page (VStr "X") (replies resp_200))).
  intros tg Hb. injection Hb as <-. right. exists "X". reflexivity.
Defined.

(** ** Beyond the claims: the failure paths of the relay *)

(** X1.  When the request fails at the network ([fetch] rejects with [e]),
    the [catch] handler logs [e] as the failure; the body of no response is
    read, no second request is made and the run ends normally. *)
Theorem network_error_is_logged (E : env) (tg : value) (X : string) (e : value) :
  bridge E = Some tg -> exposes_ready tg ->
  own_prop tg "initData" = VStr X -> X <> EmptyString ->
  network E (auth_request (VStr X)) = Abrupt e ->
  effects (trace (iife E)) =
    [ECall "tg" "ready"; EFetch (auth_request (VStr X));
     EConsole Error [VStr "Telegram auth failed"; e]]
  /\ outcome (iife E) = Normal tt.
Proof.
  intros Hb Hr Hd HX Hnet.
  destruct (relayed_effects E tg X Hb Hr Hd HX) as [-> ->].
  now rewrite Hnet, settle_rejected.
Qed.

(** X2.  When the status is outside 200-299 and the body cannot be read
    ([resp.text()] rejects with [e]), what is logged is [e] itself: no
    Error is built, and the run still ends normally. *)
Theorem unreadable_body_is_logged (E : env) (tg : value) (X : string)
    (resp : response) (e : value) :
  bridge E = Some tg -> exposes_ready tg ->
  own_prop tg "initData" = VStr X -> X <> EmptyString ->
  network E (auth_request (VStr X)) = Normal resp ->
  ~ 200 <= status resp <= 299 ->
  text resp = Abrupt e ->
  effects (trace (iife E)) =
    [ECall "tg" "ready"; EFetch (auth_request (VStr X)); EBody AsText;
     EConsole Error [VStr "Telegram auth failed"; e]]
  /\ outcome (iife E) = Normal tt.
Proof.
  intros Hb Hr Hd HX Hnet Hstatus Htxt. apply not_ok_iff in Hstatus.
  destruct (relayed_effects E tg X Hb Hr Hd HX) as [-> ->].
  now rewrite Hnet, (settle_not_ok resp Hstatus), Htxt.
Qed.

(** ** Beyond the claims: [tg.ready()] as the one source of exceptions *)

(** X3.  When the bridge object has no callable [ready], the call throws a
    TypeError that nothing catches: the run stops there, with no console
    line and no request, whatever [initData] holds. *)
Theorem missing_ready_aborts (E : env) (tg : value) :
  bridge E = Some tg -> callable (own_prop tg "ready") = false ->
  outcome (iife E) = Abrupt (TypeError "tg.ready is not a function")
  /\ effects (trace (iife E)) = []
  /\ console_lines (trace (iife E)) = []
  /\ requests (trace (iife E)) = [].
Proof.
  intros Hb Hc.
  rewrite (iife_bridge E tg Hb),
    (with_bridge_not_callable E tg (bridge_truthy E tg Hb) Hc).
  repeat split.
Qed.

(** X4.  When [ready()] throws [e], [e] escapes the function: the call is
    the only effect, nothing is logged and nothing is sent, whatever
    [initData] holds. *)
Theorem throwing_ready_aborts (E : env) (tg e : value) :
  bridge E = Some tg -> own_prop tg "ready" = VFun true e ->
  outcome (iife E) = Abrupt e
  /\ effects (trace (iife E)) = [ECall "tg" "ready"]
  /\ console_lines (trace (iife E)) = []
  /\ requests (trace (iife E)) = [].
Proof.
  intros Hb Hr.
  rewrite (iife_bridge E tg Hb),
    (with_bridge_ready_throws E tg e (bridge_truthy E tg Hb) Hr).
  repeat split.
Qed.

(** X5.  On a page whose [initData] is a string or a falsy value, an
    exception escapes the function only through [tg.ready()]: if a run ends
    abruptly with [e], the bridge is present and either its [ready] threw
    [e] or it is not callable and [e] is the TypeError of the call.  The
    guards, the reads and the promise chain do not throw; such a run has
    logged nothing and sent nothing. *)
Theorem abrupt_only_from_ready (E : env) (e : value) :
  initData_as_specified E ->
  outcome (iife E) = Abrupt e ->
  (exists tg : value,
     bridge E = Some tg
     /\ (own_prop tg "ready" = VFun true e
         \/ (callable (own_prop tg "ready") = false
             /\ e = TypeError "tg.ready is not a function")))
  /\ console_lines (trace (iife E)) = []
  /\ requests (trace (iife E)) = [].
Proof.
  intros _ H.
  destruct (classify_run E)
    as [reads Hb Hreads Hrun | tg Hb Hc Hrun | tg e' Hb Hr Hrun
       | tg r reads Hb Hr Hd Hrun | tg r Hb Hr Hd Hn Hrun];
    rewrite Hrun in H |- *; cbn [outcome snd] in H; try discriminate;
    injection H as <-.
  - split; [exists tg; split; [exact Hb | right; now split] | split; reflexivity].
  - split; [exists tg; split; [exact Hb | now left] | split; reflexivity].
Qed.

(** ** Beyond the claims: what is sent, and what is reported *)

Lemma truthy_string_nonempty (X : string) :
  ToBoolean (VStr X) = true -> X <> EmptyString.
Proof. intros H ->. discriminate. Qed.

(** On a page with the [initData] of the data model, the value the relay
    reads is a non-empty string. *)
Lemma relayed_value_is_string (E : env) (tg : value) :
  initData_as_specified E -> bridge E = Some tg ->
  ToBoolean (own_prop tg "initData") = true ->
  exists X : string, own_prop tg "initData" = VStr X /\ X <> EmptyString.
Proof.
  intros Hspec Hb Hd. destruct (Hspec tg Hb) as [Hf | [X HX]].
  - congruence.
  - exists X. split; [exact HX|]. rewrite HX in Hd.
    exact (truthy_string_nonempty X Hd).
Qed.

(** X6.  On a page whose [initData] is a string or a falsy value, a
    request is issued only when the bridge is present, its [ready()] has
    returned and [initData] is a non-empty string [X]; the request is then
    the POST to the endpoint whose body is the JSON text of
    [{init_data: X}].  Nothing is sent without a bridge, and nothing for an
    undefined, null, false, 0 or empty [initData]. *)
Theorem request_only_for_nonempty_string (E : env) (req : request) :
  initData_as_specified E ->
  In req (requests (trace (iife E))) ->
  exists (tg r : value) (X : string),
    bridge E = Some tg
    /\ own_prop tg "ready" = VFun false r
    /\ own_prop tg "initData" = VStr X
    /\ X <> EmptyString
    /\ req = auth_request (VStr X)
    /\ url req = "/api/v1/auth/telegram-webapp"
    /\ method req = "POST"
    /\ headers req = [("Content-Type", "application/json")]
    /\ credentials req = "include"
    /\ body req =
         Some ("{" ++ dquote ++ "init_data" ++ dquote ++ ":"
                 ++ dquote ++ JSON_escape_all X ++ dquote ++ "}").
Proof.
  intros Hspec H.
  destruct (classify_run E)
    as [reads Hb [-> | ->] Hrun | tg Hb Hc Hrun | tg e' Hb Hr Hrun
       | tg r reads Hb Hr [[_ ->] | (_ & _ & ->)] Hrun | tg r Hb Hr Hd Hn Hrun];
    rewrite Hrun in H; cbn [trace fst] in H; try contradiction.
  destruct (relayed_value_is_string E tg Hspec Hb Hd) as (X & HX & Hne).
  rewrite HX in H.
  destruct (settle_shape (network E (auth_request (VStr X)))) as [Hs _].
  assert (Hreq : req = auth_request (VStr X)).
  { destruct Hs; cbn in H; destruct H as [H | []]; now symmetry. }
  exists tg, r, X. subst req.
  repeat (split; [first [assumption | reflexivity]|]).
  exact (stringify_init_data X).
Qed.

(** X7.  At every point of a run, also while the request is pending, at
    most one console line has been written: a warning, the success line
    and the failure line exclude one another.  A run that an exception
    ends has written none. *)
Theorem at_most_one_console_line (E : env) :
  (forall t' post : list event,
     trace (iife E) = (t' ++ post)%list ->
     (length (console_lines t') <= 1)%nat)
  /\ (forall e : value,
        outcome (iife E) = Abrupt e -> console_lines (trace (iife E)) = []).
Proof.
  split.
  - assert (Hfull : (length (console_lines (trace (iife E))) <= 1)%nat)
      by (run_cases E; cbn; lia).
    intros t' post Heq. rewrite Heq, console_lines_app, length_app in Hfull. lia.
  - run_cases E; cbn [trace outcome fst snd]; intros x Hx;
      first [discriminate | reflexivity].
Qed.

(** X8.  On a page whose [initData] is a string or a falsy value, the
    success line is written only for a response the server sent to the
    request for that string, with a status in 200-299 and a body that
    parsed as JSON; its payload is that parsed value. *)
Theorem success_only_after_2xx_json (E : env) (args : list value) :
  initData_as_specified E ->
  In (Log, args) (console_lines (trace (iife E))) ->
  exists (tg : value) (X : string) (resp : response) (data : value),
    bridge E = Some tg
    /\ own_prop tg "initData" = VStr X
    /\ network E (auth_request (VStr X)) = Normal resp
    /\ 200 <= status resp <= 299
    /\ json resp = Normal data
    /\ args = [VStr "Telegram auth OK"; data].
Proof.
  intros Hspec H.
  destruct (classify_run E)
    as [reads Hb [-> | ->] Hrun | tg Hb Hc Hrun | tg e' Hb Hr Hrun
       | tg r reads Hb Hr [[_ ->] | (_ & _ & ->)] Hrun | tg r Hb Hr Hd Hn Hrun];
    rewrite Hrun in H; cbn [trace fst] in H;
    try (cbn in H; destruct H as [H | H]; [discriminate | contradiction]);
    try contradiction.
  destruct (relayed_value_is_string E tg Hspec Hb Hd) as (X & HX & Hne).
  rewrite HX in H.
  destruct (network E (auth_request (VStr X))) as [resp | e] eqn:Hnet.
  - destruct (ok resp) eqn:Hok.
    + rewrite (settle_ok resp Hok) in H.
      destruct (json resp) as [data | e] eqn:Hjson;
        cbn in H; destruct H as [H | []]; [|discriminate].
      injection H as <-.
      exists tg, X, resp, data. repeat split; try assumption; now apply ok_iff.
    + rewrite (settle_not_ok resp Hok) in H.
      cbn in H. destruct H as [H | []]. discriminate.
  - rewrite settle_rejected in H. cbn in H. destruct H as [H | []]. discriminate.
Qed.

(** X12.  At every point of a run, also while the request is pending: the
    response body has been read at most once, and only after the request;
    a report ([console.log] or [console.error]) comes only after the
    request; a warning and a request never occur in the same run. *)
Theorem report_follows_request (E : env) (t' post : list event) :
  trace (iife E) = (t' ++ post)%list ->
  (length (filter is_body_read t') <= 1)%nat
  /\ precedes is_fetch is_body_read t'
  /\ precedes is_fetch is_report t'
  /\ existsb is_warning t' && existsb is_fetch t' = false.
Proof.
  assert (Hfull :
    (length (filter is_body_read (trace (iife E))) <= 1)%nat
    /\ precedes is_fetch is_body_read (trace (iife E))
    /\ precedes is_fetch is_report (trace (iife E))
    /\ existsb is_warning (trace (iife E)) && existsb is_fetch (trace (iife E))
       = false).
  { run_cases E; cbn [trace fst];
      (split; [cbn; lia |
       split; [apply precedesb_precedes; reflexivity |
       split; [apply precedesb_precedes; reflexivity | reflexivity]]]). }
  intros Heq. rewrite Heq in Hfull.
  destruct Hfull as (Hn & Hb & Hr & Hw).
  split; [|split; [|split]].
  - rewrite filter_app, length_app in Hn. lia.
  - exact (precedes_prefix _ _ t' post Hb).
  - exact (precedes_prefix _ _ t' post Hr).
  - rewrite !existsb_app in Hw.
    destruct (existsb is_warning t'), (existsb is_fetch t'); try reflexivity.
    cbn in Hw. discriminate.
Qed.

(** ** Beyond the claims: values of [initData] that are not strings *)

(** X9.  The guard does not look at the type of [initData]: [true], and a
    non-zero integer that a Number holds exactly, pass both tests and are
    relayed as they are, in one request whose [init_data] member is the
    JSON literal of the value, not a string. *)
Theorem boolean_or_number_is_relayed (E : env) (tg : value) :
  bridge E = Some tg -> exposes_ready tg ->
  (own_prop tg "initData" = VBool true ->
   requests (trace (iife E)) = [auth_request (VBool true)]
   /\ body (auth_request (VBool true)) =
        Some ("{" ++ dquote ++ "init_data" ++ dquote ++ ":true}"))
  /\ (forall n : Z,
        own_prop tg "initData" = VNum n -> n <> 0 -> safe_integer n ->
        requests (trace (iife E)) = [auth_request (VNum n)]
        /\ body (auth_request (VNum n)) =
             Some ("{" ++ dquote ++ "init_data" ++ dquote ++ ":"
                     ++ NilZero.string_of_int (Z.to_int n) ++ "}")).
Proof.
  intros Hb [r Hr].
  pose proof (bridge_truthy E tg Hb) as Htg.
  split.
  - intros Hd. split; [|reflexivity].
    rewrite (iife_bridge E tg Hb), (with_bridge_relay E tg r Htg Hr);
      rewrite ?Hd; try reflexivity.
    cbn [trace fst].
    destruct (settle_shape (network E (auth_request (VBool true)))) as [Hs _].
    destruct Hs; reflexivity.
  - intros n Hd Hn _. split.
    + rewrite (iife_bridge E tg Hb), (with_bridge_relay E tg r Htg Hr);
        rewrite ?Hd; try reflexivity.
      * cbn [trace fst].
        destruct (settle_shape (network E (auth_request (VNum n)))) as [Hs _].
        destruct Hs; reflexivity.
      * cbn [ToBoolean]. now apply negb_true_iff, Z.eqb_neq.
    + cbn [auth_request body JSON_stringify join]. unfold JSON_quote.
      rewrite !append_assoc. reflexivity.
Qed.

(** X10.  An object whose [length] is 0 passes the truthiness test and is
    stopped by the length test: its [length] is read, the warning of the
    empty payload is written and nothing is sent. *)
Theorem zero_length_object_is_empty (E : env) (tg : value)
    (props : list (string * value)) :
  bridge E = Some tg -> exposes_ready tg ->
  own_prop tg "initData" = VObj props ->
  lookup "length" props = Some (VNum 0) ->
  effects (trace (iife E)) =
    [ECall "tg" "ready"; EConsole Warn [VStr "No initData from Telegram"]]
  /\ existsb (on_object "tg.initData") (trace (iife E)) = true
  /\ requests (trace (iife E)) = []
  /\ outcome (iife E) = Normal tt.
Proof.
  intros Hb [r Hr] Hd Hl.
  rewrite (iife_bridge E tg Hb),
    (with_bridge_zero_length E tg r (bridge_truthy E tg Hb) Hr).
  - repeat split.
  - now rewrite Hd.
  - rewrite Hd. cbn [own_prop]. now rewrite Hl.
Qed.

(** ** Beyond the claims: the body determines [initData] *)

Lemma JSON_unescape_escape (c : ascii) (rest : string) :
  JSON_unescape (JSON_escape c ++ rest) = String c (JSON_unescape rest).
Proof.
  destruct c as [b0 b1 b2 b3 b4 b5 b6 b7].
  destruct b0, b1, b2, b3, b4, b5, b6, b7; reflexivity.
Qed.

Lemma JSON_unescape_escape_all (s t : string) :
  JSON_unescape (JSON_escape_all s ++ t) = s ++ JSON_unescape t.
Proof.
  induction s as [|c s IH]; [reflexivity|].
  cbn [JSON_escape_all]. rewrite append_assoc, JSON_unescape_escape, IH.
  reflexivity.
Qed.

Lemma length_append (a b : string) :
  String.length (a ++ b) = (String.length a + String.length b)%nat.
Proof. induction a as [|c a IH]; simpl; [reflexivity | now rewrite IH]. Qed.

Lemma append_cancel_r (a b c : string) : a ++ c = b ++ c -> a = b.
Proof.
  revert b. induction a as [|x a IH]; intros [|y b] H.
  - reflexivity.
  - apply (f_equal String.length) in H. simpl in H.
    rewrite length_append in H. lia.
  - apply (f_equal String.length) in H. simpl in H.
    rewrite length_append in H. lia.
  - simpl in H. injection H as -> H. now rewrite (IH b H).
Qed.

(** X11.  The body of the request determines the string it relays: the
    escaping of [JSON.stringify] loses nothing, so two different
    [initData] strings never give the same body. *)
Theorem body_determines_initData (X Y : string) :
  body (auth_request (VStr X)) = body (auth_request (VStr Y)) -> X = Y.
Proof.
  unfold auth_request, body. rewrite !stringify_init_data.
  intros H. injection H as H.
  apply (f_equal JSON_unescape) in H.
  rewrite !JSON_unescape_escape_all in H.
  exact (append_cancel_r X Y _ H).
Qed.

(** ** Instances of the further properties *)

Lemma network_error_is_logged_witness :
  effects (trace (iife (page (VStr "X") offline))) =
    [ECall "tg" "ready"; EFetch (auth_request (VStr "X"));
     EConsole Error [VStr "Telegram auth failed"; TypeError "Failed to fetch"]]
  /\ outcome (iife (page (VStr "X") offline)) = Normal tt.
Proof.
  apply (network_error_is_logged (page (VStr "X") offline) (web_app (VStr "X")) "X");
    [reflexivity | exists VUndefined; reflexivity | reflexivity | discriminate
    | reflexivity].
Defined.

Lemma unreadable_body_is_logged_witness :
  effects (trace (iife (page (VStr "X") (replies resp_500_unreadable)))) =
    [ECall "tg" "ready"; EFetch (auth_request (VStr "X")); EBody AsText;
     EConsole Error
       [VStr "Telegram auth failed"; VError "TypeError" "network error"]]
  /\ outcome (iife (page (VStr "X") (replies resp_500_unreadable))) = Normal tt.
Proof.
  apply (unreadable_body_is_logged (page (VStr "X") (replies resp_500_unreadable))
           (web_app (VStr "X")) "X" resp_500_unreadable);
    [reflexivity | exists VUndefined; reflexivity | reflexivity | discriminate
    | reflexivity | simpl; lia | reflexivity].
Defined.

Lemma missing_ready_aborts_witness :
  outcome (iife (page_without_ready (VStr "X"))) =
    Abrupt (TypeError "tg.ready is not a function")
  /\ effects (trace (iife (page_without_ready (VStr "X")))) = []
  /\ console_lines (trace (iife (page_without_ready (VStr "X")))) = []
  /\ requests (trace (iife (page_without_ready (VStr "X")))) = [].
Proof.
  apply (missing_ready_aborts (page_without_ready (VStr "X"))
           (VObj [("initData", VStr "X")])); reflexivity.
Defined.

Lemma throwing_ready_aborts_witness :
  outcome (iife (page_ready_throws (VStr "boom") (VStr "X"))) = Abrupt (VStr "boom")
  /\ effects (trace (iife (page_ready_throws (VStr "boom") (VStr "X")))) =
       [ECall "tg" "ready"]
  /\ console_lines (trace (iife (page_ready_throws (VStr "boom") (VStr "X")))) = []
  /\ requests (trace (iife (page_ready_throws (VStr "boom") (VStr "X")))) = [].
Proof.
  apply (throwing_ready_aborts (page_ready_throws (VStr "boom") (VStr "X"))
           (VObj [("initData", VStr "X"); ("ready", VFun true (VStr "boom"))]));
    reflexivity.
Defined.

Lemma abrupt_only_from_ready_witness :
  requests (trace (iife (page_ready_throws (VStr "boom") (VStr "X")))) = [].
Proof.
  apply (abrupt_only_from_ready (page_ready_throws (VStr "boom") (VStr "X"))
           (VStr "boom")).
  - intros tg Hb. injection Hb as <-. right. exists "X". reflexivity.
  - reflexivity.
Defined.

Lemma request_only_for_nonempty_string_witness :
  exists (tg r : value) (X : string),
    bridge (page (VStr "X") offline) = Some tg
    /\ own_prop tg "ready" = VFun false r
    /\ own_prop tg "initData" = VStr X
    /\ X <> EmptyString
    /\ auth_request (VStr "X") = auth_request (VStr X)
    /\ url (auth_request (VStr "X")) = "/api/v1/auth/telegram-webapp"
    /\ method (auth_request (VStr "X")) = "POST"
    /\ headers (auth_request (VStr "X")) = [("Content-Type", "application/json")]
    /\ credentials (auth_request (VStr "X")) = "include"
    /\ body (auth_request (VStr "X")) =
         Some ("{" ++ dquote ++ "init_data" ++ dquote ++ ":"
                 ++ dquote ++ JSON_escape_all X ++ dquote ++ "}").
Proof.
  apply (request_only_for_nonempty_string (page (VStr "X") offline)
           (auth_request (VStr "X"))).
  - intros tg Hb. injection Hb as <-. right. exists "X". reflexivity.
  - left. reflexivity.
Defined.

Lemma at_most_one_console_line_witness :
  (length (console_lines
             (probe_reads ++ ready_events ++ guard_reads
                ++ [EGet "tg" "initData"; EFetch (auth_request (VStr "X"))]))
   <= 1)%nat
  /\ console_lines
       (trace (iife (page_ready_throws (VStr "boom") (VStr "X")))) = [].
Proof.
  destruct (at_most_one_console_line (page (VStr "X") (replies resp_200)))
    as [H1 _].
  destruct (at_most_one_console_line
              (page_ready_throws (VStr "boom") (VStr "X"))) as [_ H2].
  split.
  - apply (H1 _ [EBody AsJson;
                 EConsole Log [VStr "Telegram auth OK"; VObj [("ok", VBool true)]]]).
    reflexivity.
  - apply (H2 (VStr "boom")). reflexivity.
Defined.

Lemma success_only_after_2xx_json_witness :
  exists (tg : value) (X : string) (resp : response) (data : value),
    bridge (page (VStr "X") (replies resp_200)) = Some tg
    /\ own_prop tg "initData" = VStr X
    /\ network (page (VStr "X") (replies resp_200)) (auth_request (VStr X))
       = Normal resp
    /\ 200 <= status resp <= 299
    /\ json resp = Normal data
    /\ [VStr "Telegram auth OK"; VObj [("ok", VBool true)]] =
         [VStr "Telegram auth OK"; data].
Proof.
  apply (success_only_after_2xx_json (page (VStr "X") (replies resp_200))
           [VStr "Telegram auth OK"; VObj [("ok", VBool true)]]).
  - intros tg Hb. injection Hb as <-. right. exists "X". reflexivity.
  - left. reflexivity.
Defined.

Lemma report_follows_request_witness :
  (length (filter is_body_read
             (probe_reads ++ ready_events ++ guard_reads
                ++ [EGet "tg" "initData"; EFetch (auth_request (VStr "X"))]))
   <= 1)%nat.
Proof.
  apply (report_follows_request (page (VStr "X") (replies resp_200))
           (probe_reads ++ ready_events ++ guard_reads
              ++ [EGet "tg" "initData"; EFetch (auth_request (VStr "X"))])
           [EBody AsJson;
            EConsole Log [VStr "Telegram auth OK"; VObj [("ok", VBool true)]]]).
  reflexivity.
Defined.

Lemma boolean_or_number_is_relayed_witness :
  (requests (trace (iife (page (VBool true) offline))) =
     [auth_request (VBool true)]
   /\ body (auth_request (VBool true)) =
        Some ("{" ++ dquote ++ "init_data" ++ dquote ++ ":true}"))
  /\ (requests (trace (iife (page (VNum 42) offline))) =
        [auth_request (VNum 42)]
      /\ body (auth_request (VNum 42)) =
           Some ("{" ++ dquote ++ "init_data" ++ dquote ++ ":42}")).
Proof.
  split.
  - apply (proj1 (boolean_or_number_is_relayed (page (VBool true) offline)
                    (web_app (VBool true)) eq_refl
                    (ex_intro _ VUndefined eq_refl))).
    reflexivity.
  - apply (proj2 (boolean_or_number_is_relayed (page (VNum 42) offline)
                    (web_app (VNum 42)) eq_refl
                    (ex_intro _ VUndefined eq_refl)) 42);
      [reflexivity | discriminate | unfold safe_integer; simpl; lia].
Defined.

Lemma zero_length_object_is_empty_witness :
  effects (trace (iife (page (VObj [("length", VNum 0)]) offline))) =
    [ECall "tg" "ready"; EConsole Warn [VStr "No initData from Telegram"]]
  /\ existsb (on_object "tg.initData")
       (trace (iife (page (VObj [("length", VNum 0)]) offline))) = true
  /\ requests (trace (iife (page (VObj [("length", VNum 0)]) offline))) = []
  /\ outcome (iife (page (VObj [("length", VNum 0)]) offline)) = Normal tt.
Proof.
  apply (zero_length_object_is_empty (page (VObj [("length", VNum 0)]) offline)
           (web_app (VObj [("length", VNum 0)])) [("length", VNum 0)]);
    [reflexivity | exists VUndefined; reflexivity | reflexivity | reflexivity].
Defined.

Lemma body_determines_initData_witness :
  "query_id=1&user=7" = "query_id=1&user=7".
Proof.
  apply (body_determines_initData "query_id=1&user=7" "query_id=1&user=7").
  reflexivity.
Defined.
